(** * PollReader: a shallow embedding of [src/PollReader.py]

    The development follows the Python source function by function.

    - Python [str] values are Rocq [string]s; a character is a code point
      below 256 (the Latin-1 range), which is where the builtins used by the
      source ([str.strip], [str.split], [str.lower], [int], [float]) are
      modelled.
    - Python [int] is [Z].
    - Python [float] is IEEE 754 binary64, modelled by the Standard
      Library's executable [spec_float] at precision 53 and maximal
      exponent 1024, rounding to nearest, ties to even.
    - [self.data_dict] is a record of six lists.  The methods run in a
      small state-and-exception monad in which the state survives an
      exception, as the mutated Python object does. *)

From Stdlib Require Import ZArith List Bool Ascii String Lia.
From Stdlib Require Import Floats.SpecFloat.
From Stdlib Require Import DecimalString.
Import ListNotations.

Local Open Scope string_scope.
Local Open Scope list_scope.
Local Open Scope Z_scope.

(** ** Python strings *)

Module PyStr.

(** [str.isspace] on one character of the Latin-1 range. *)
Definition isspace (c : ascii) : bool :=
  let n := Z.of_N (N_of_ascii c) in
  ((9 <=? n) && (n <=? 13)) || ((28 <=? n) && (n <=? 32))
  || (n =? 133) || (n =? 160).

Fixpoint lstrip (s : string) : string :=
  match s with
  | EmptyString => EmptyString
  | String c r => if isspace c then lstrip r else s
  end.

Fixpoint rstrip (s : string) : string :=
  match s with
  | EmptyString => EmptyString
  | String c r =>
      match rstrip r with
      | EmptyString => if isspace c then EmptyString else String c EmptyString
      | r' => String c r'
      end
  end.

(** [s.strip()] *)
Definition strip (s : string) : string := lstrip (rstrip s).

(** [s.split(sep)] for a one-character separator: never an empty list. *)
Fixpoint split_on (sep : ascii) (s : string) : list string :=
  match s with
  | EmptyString => [EmptyString]
  | String c r =>
      if Ascii.eqb c sep then EmptyString :: split_on sep r
      else match split_on sep r with
           | h :: t => String c h :: t
           | [] => [String c EmptyString]
           end
  end.

(** [s.split()]: the maximal runs of non-whitespace characters. *)
Fixpoint split (s : string) : list string :=
  match s with
  | EmptyString => []
  | String c r =>
      if isspace c then split r
      else match r with
           | EmptyString => [String c EmptyString]
           | String c' _ =>
               if isspace c' then String c EmptyString :: split r
               else match split r with
                    | h :: t => String c h :: t
                    | [] => [String c EmptyString]
                    end
           end
  end.

Definition lower_char (c : ascii) : ascii :=
  let n := Z.of_N (N_of_ascii c) in
  if ((65 <=? n) && (n <=? 90))
     || ((192 <=? n) && (n <=? 222) && negb (n =? 215))
  then ascii_of_N (Z.to_N (n + 32)) else c.

(** [s.lower()] *)
Fixpoint lower (s : string) : string :=
  match s with
  | EmptyString => EmptyString
  | String c r => String (lower_char c) (lower r)
  end.

(** Value of a decimal digit character. *)
Definition digit_val (c : ascii) : option Z :=
  let n := Z.of_N (N_of_ascii c) in
  if (48 <=? n) && (n <=? 57) then Some (n - 48) else None.

Definition is_digit (c : ascii) : bool :=
  match digit_val c with Some _ => true | None => false end.

(** Longest prefix of the form [digit (["_"] digit)*]: its digit values,
    most significant first, and the rest of the string. *)
Fixpoint scan_digitpart (s : string) : list Z * string :=
  match s with
  | EmptyString => ([], EmptyString)
  | String c r =>
      match digit_val c with
      | None => ([], s)
      | Some v =>
          let '(ds, rest) :=
            match r with
            | String "_"%char (String d _ as r1) =>
                if is_digit d then scan_digitpart r1 else ([], r)
            | _ => scan_digitpart r
            end in
          (v :: ds, rest)
      end
  end.

Definition digits_value (ds : list Z) : Z :=
  fold_left (fun acc d => 10 * acc + d) ds 0.

(** An optional sign: [true] for a minus. *)
Definition scan_sign (s : string) : bool * string :=
  match s with
  | String "-"%char r => (true, r)
  | String "+"%char r => (false, r)
  | _ => (false, s)
  end.

End PyStr.

(** ** Python exceptions and builtins on numbers *)

Inductive exn : Type :=
| ValueError
| IndexError
| ZeroDivisionError.

Inductive result (A : Type) : Type :=
| Ok (a : A)
| Raise (e : exn).
Arguments Ok {A} a.
Arguments Raise {A} e.

(** [int(s)] on a string, base 10: surrounding whitespace, an optional
    sign, digits with single underscores between them.  (The interpreter's
    configurable limit on the number of digits is outside the model.) *)
Definition py_int (s : string) : result Z :=
  let '(neg, body) := PyStr.scan_sign (PyStr.strip s) in
  match PyStr.scan_digitpart body with
  | ((_ :: _) as ds, EmptyString) =>
      let v := PyStr.digits_value ds in
      Ok (if neg then - v else v)
  | _ => Raise ValueError
  end.

(** *** binary64 *)

Definition float : Type := spec_float.

Definition prec : Z := 53.
Definition emax : Z := 1024.

Definition float_add : float -> float -> float := SFadd prec emax.
Definition float_sub : float -> float -> float := SFsub prec emax.
Definition float_mul : float -> float -> float := SFmul prec emax.
Definition float_div : float -> float -> float := SFdiv prec emax.
Definition float_gt (x y : float) : bool := SFltb y x.
Definition float_eq (x y : float) : bool := SFeqb x y.
Definition float_le (x y : float) : bool := SFleb x y.

(** [float(n)] for an integer [n], correctly rounded. *)
Definition float_of_Z (n : Z) : float := binary_normalize prec emax n 0 false.

Definition f0 : float := S754_zero false.
Definition f1 : float := float_of_Z 1.
Definition f100 : float := float_of_Z 100.

(** The binary64 nearest to [(-1)^neg * m * 10^e], for [m > 0]. *)
Definition float_of_decimal (neg : bool) (m : positive) (e : Z) : float :=
  match e with
  | Zneg k =>
      let '(q, e', l) :=
        SFdiv_core_binary prec emax (Zpos m) 0 (Zpos (10 ^ k)) 0 in
      binary_round_aux prec emax neg q e' l
  | _ => binary_round prec emax neg (m * Z.to_pos (10 ^ e)) 0
  end.

(** The exponent part of a float literal: [("e" | "E") [sign] digitpart]. *)
Definition scan_exponent (s : string) : result (Z * string) :=
  match s with
  | String c r =>
      if Ascii.eqb c "e" || Ascii.eqb c "E" then
        let '(neg, r1) := PyStr.scan_sign r in
        match PyStr.scan_digitpart r1 with
        | ((_ :: _) as ds, rest) =>
            let v := PyStr.digits_value ds in
            Ok (if neg then - v else v, rest)
        | _ => Raise ValueError
        end
      else Ok (0, s)
  | EmptyString => Ok (0, s)
  end.

(** [float(s)] on a string. *)
Definition py_float (s : string) : result float :=
  let '(neg, body) := PyStr.scan_sign (PyStr.strip s) in
  let low := PyStr.lower body in
  if String.eqb low "inf" || String.eqb low "infinity" then
    Ok (S754_infinity neg)
  else if String.eqb low "nan" then Ok S754_nan
  else
    let '(ip, r1) := PyStr.scan_digitpart body in
    let '(fp, r2) :=
      match r1 with
      | String "."%char r => PyStr.scan_digitpart r
      | _ => ([], r1)
      end in
    match ip, fp with
    | [], [] => Raise ValueError
    | _, _ =>
        match scan_exponent r2 with
        | Ok (ex, EmptyString) =>
            match PyStr.digits_value (ip ++ fp)%list with
            | Zpos m =>
                Ok (float_of_decimal neg m (ex - Z.of_nat (List.length fp)))
            | _ => Ok (S754_zero neg)
            end
        | _ => Raise ValueError
        end
    end.

(** [x / n] for a float [x] and an integer [n]. *)
Definition py_truediv (x : float) (n : Z) : result float :=
  if n =? 0 then Raise ZeroDivisionError
  else Ok (float_div x (float_of_Z n)).

(** [sum(l)] for a list of floats: the items are added from left to right
    to the start value [0] (CPython up to 3.11; later versions add a
    compensation term, which no statement below depends on). *)
Definition py_sum (l : list float) : float := fold_left float_add l f0.

(** [max(l)]: the first item that no later item is greater than. *)
Definition py_max (l : list float) : result float :=
  match l with
  | [] => Raise ValueError
  | x :: r => Ok (fold_left (fun m y => if float_gt y m then y else m) r x)
  end.

(** [l[i]] for an index [i >= 0]. *)
Definition getitem {A : Type} (l : list A) (i : nat) : result A :=
  match nth_error l i with
  | Some a => Ok a
  | None => Raise IndexError
  end.

(** [l[:n]] and [l[k:]], negative bounds counting from the end. *)
Definition slice_to {A : Type} (l : list A) (n : Z) : list A :=
  if n <? 0 then firstn (Z.to_nat (Z.of_nat (List.length l) + n)) l
  else firstn (Z.to_nat n) l.

Definition slice_from {A : Type} (l : list A) (k : Z) : list A :=
  if k <? 0 then skipn (Z.to_nat (Z.of_nat (List.length l) + k)) l
  else skipn (Z.to_nat k) l.

(** [len(l)] *)
Definition len {A : Type} (l : list A) : Z := Z.of_nat (List.length l).

(** *** Formatting with [:.1f] *)

Definition round_half_even_div (num den : Z) : Z :=
  let q := num / den in
  match 2 * (num mod den) ?= den with
  | Lt => q
  | Gt => q + 1
  | Eq => if Z.even q then q else q + 1
  end.

Definition str_of_Z (n : Z) : string :=
  NilZero.string_of_uint (N.to_uint (Z.to_N n)).

(** [f"{x:.1f}"]: the exact binary value rounded to one decimal place,
    ties to even. *)
Definition format_1f (x : float) : string :=
  match x with
  | S754_nan => "nan"
  | S754_infinity s => if s then "-inf" else "inf"
  | S754_zero s => if s then "-0.0" else "0.0"
  | S754_finite s m e =>
      let tenths :=
        match e with
        | Zneg k => round_half_even_div (10 * Zpos m) (Zpos (2 ^ k))
        | _ => 10 * Zpos m * 2 ^ e
        end in
      ((if s then "-" else "")
         ++ str_of_Z (tenths / 10) ++ "." ++ str_of_Z (tenths mod 10))%string
  end.

(** ** The class [PollReader] *)

Record data_dict_t : Type := {
  month : list string;
  date : list Z;
  sample : list Z;
  sample_type : list string;
  Harris_result : list float;
  Trump_result : list float
}.

Record PollReader : Type := {
  raw_data : list string;
  data_dict : data_dict_t
}.

(** [__init__], given the lines that [readlines] returned. *)
Definition init (lines : list string) : PollReader :=
  {| raw_data := lines;
     data_dict := {| month := []; date := []; sample := [];
                     sample_type := []; Harris_result := [];
                     Trump_result := [] |} |}.

(** A method body: it may raise and it may mutate [self]; what it did to
    [self] before raising stays done. *)
Definition M (A : Type) : Type := PollReader -> result A * PollReader.

Definition ret {A : Type} (a : A) : M A := fun self => (Ok a, self).

Definition bind {A B : Type} (m : M A) (k : A -> M B) : M B :=
  fun self =>
    match m self with
    | (Ok a, self') => k a self'
    | (Raise e, self') => (Raise e, self')
    end.

Definition lift {A : Type} (r : result A) : M A := fun self => (r, self).

Declare Scope py_scope.
Delimit Scope py_scope with py.
Notation "x <- m ;; k" := (bind m (fun x => k))
  (at level 61, m at next level, right associativity) : py_scope.
Notation "m ;; k" := (bind m (fun _ => k))
  (at level 61, right associativity) : py_scope.

Definition with_dict (f : data_dict_t -> data_dict_t) : M unit :=
  fun self =>
    (Ok tt, {| raw_data := raw_data self; data_dict := f (data_dict self) |}).

(** [self.data_dict[column].append(v)], one definition per column. *)
Definition append_month (v : string) : M unit :=
  with_dict (fun d =>
    {| month := month d ++ [v]; date := date d; sample := sample d;
       sample_type := sample_type d; Harris_result := Harris_result d;
       Trump_result := Trump_result d |}).

Definition append_date (v : Z) : M unit :=
  with_dict (fun d =>
    {| month := month d; date := date d ++ [v]; sample := sample d;
       sample_type := sample_type d; Harris_result := Harris_result d;
       Trump_result := Trump_result d |}).

Definition append_sample (v : Z) : M unit :=
  with_dict (fun d =>
    {| month := month d; date := date d; sample := sample d ++ [v];
       sample_type := sample_type d; Harris_result := Harris_result d;
       Trump_result := Trump_result d |}).

Definition append_sample_type (v : string) : M unit :=
  with_dict (fun d =>
    {| month := month d; date := date d; sample := sample d;
       sample_type := sample_type d ++ [v];
       Harris_result := Harris_result d; Trump_result := Trump_result d |}).

Definition append_Harris_result (v : float) : M unit :=
  with_dict (fun d =>
    {| month := month d; date := date d; sample := sample d;
       sample_type := sample_type d;
       Harris_result := Harris_result d ++ [v];
       Trump_result := Trump_result d |}).

Definition append_Trump_result (v : float) : M unit :=
  with_dict (fun d =>
    {| month := month d; date := date d; sample := sample d;
       sample_type := sample_type d; Harris_result := Harris_result d;
       Trump_result := Trump_result d ++ [v] |}).

(** [_to_fraction] *)
Definition _to_fraction (val_str : string) : result float :=
  match py_float val_str with
  | Ok v => Ok (if float_gt v f1 then float_div v f100 else v)
  | Raise e => Raise e
  end.

Local Open Scope py_scope.

(** The sample column of [build_data_dict]: the pair
    [(sample_size, sample_type)] of the two local variables. *)
Definition sample_column (field : string) : result (Z * string) :=
  let sample_parts := PyStr.split field in
  if len sample_parts =? 2 then
    match getitem sample_parts 0 with
    | Raise e => Raise e
    | Ok p0 =>
        match py_int p0 with
        | Raise e => Raise e
        | Ok sample_size =>
            match getitem sample_parts 1 with
            | Raise e => Raise e
            | Ok p1 =>
                Ok (sample_size,
                    if String.eqb p1 "LV" || String.eqb p1 "RV"
                    then p1 else "Unknown")
            end
        end
    end
  else
    match getitem sample_parts 0 with
    | Raise e => Raise e
    | Ok p0 =>
        match py_int p0 with
        | Raise e => Raise e
        | Ok sample_size => Ok (sample_size, "Unknown")
        end
    end.

(** The body of the loop of [build_data_dict] for a row that is not the
    header. *)
Definition build_row (row : string) : M unit :=
  let separated :=
    map PyStr.strip (PyStr.split_on ","%char (PyStr.strip row)) in
  if len separated <? 5 then ret tt
  else
    c0 <- lift (getitem separated 0) ;;
    append_month c0 ;;
    c1 <- lift (getitem separated 1) ;;
    d <- lift (py_int c1) ;;
    append_date d ;;
    c2 <- lift (getitem separated 2) ;;
    st <- lift (sample_column c2) ;;
    append_sample (fst st) ;;
    append_sample_type
      (if String.eqb (snd st) "LV" then "likely voters"
       else "registered voters") ;;
    c3 <- lift (getitem separated 3) ;;
    h <- lift (_to_fraction c3) ;;
    append_Harris_result h ;;
    c4 <- lift (getitem separated 4) ;;
    t <- lift (_to_fraction c4) ;;
    append_Trump_result t.

Fixpoint build_loop (idx : nat) (rows : list string) : M unit :=
  match rows with
  | [] => ret tt
  | row :: rest =>
      (if Nat.eqb idx 0 then ret tt else build_row row) ;;
      build_loop (S idx) rest
  end.

(** [build_data_dict] *)
Definition build_data_dict : M unit :=
  fun self => build_loop 0 (raw_data self) self.

Local Close Scope py_scope.

(** In the three queries below [self] is only read, so they are functions
    of [self] into [result]. *)

(** [highest_polling_candidate] *)
Definition highest_polling_candidate (self : PollReader) : result string :=
  let harris_results := Harris_result (data_dict self) in
  let trump_results := Trump_result (data_dict self) in
  match (match harris_results with [] => Ok f0 | _ => py_max harris_results end)
  with
  | Raise e => Raise e
  | Ok max_harris =>
      match (match trump_results with [] => Ok f0 | _ => py_max trump_results end)
      with
      | Raise e => Raise e
      | Ok max_trump =>
          if float_gt max_harris max_trump then
            Ok ("Harris " ++ format_1f (float_mul max_harris f100) ++ "%")%string
          else if float_gt max_trump max_harris then
            Ok ("Trump " ++ format_1f (float_mul max_trump f100) ++ "%")%string
          else
            Ok ("EVEN " ++ format_1f (float_mul max_harris f100) ++ "%")%string
      end
  end.

(** The loop of [likely_voter_polling_average] over
    [enumerate(self.data_dict['sample type'])], from index [i] on, with the
    two lists built so far. *)
Fixpoint likely_loop (d : data_dict_t) (i : nat) (stypes : list string)
    (harris_likely trump_likely : list float)
  : result (list float * list float) :=
  match stypes with
  | [] => Ok (harris_likely, trump_likely)
  | stype :: rest =>
      if String.eqb (PyStr.lower stype) "likely voters" then
        match getitem (Harris_result d) i with
        | Raise e => Raise e
        | Ok h =>
            match getitem (Trump_result d) i with
            | Raise e => Raise e
            | Ok t =>
                likely_loop d (S i) rest
                  (harris_likely ++ [h]) (trump_likely ++ [t])
            end
        end
      else likely_loop d (S i) rest harris_likely trump_likely
  end.

(** [sum(l) / len(l) if l else 0.0] *)
Definition avg_or_zero (l : list float) : result float :=
  match l with
  | [] => Ok f0
  | _ => py_truediv (py_sum l) (len l)
  end.

(** [likely_voter_polling_average] *)
Definition likely_voter_polling_average (self : PollReader)
  : result (float * float) :=
  let d := data_dict self in
  match likely_loop d 0 (sample_type d) [] [] with
  | Raise e => Raise e
  | Ok (harris_likely, trump_likely) =>
      match avg_or_zero harris_likely with
      | Raise e => Raise e
      | Ok harris_avg =>
          match avg_or_zero trump_likely with
          | Raise e => Raise e
          | Ok trump_avg => Ok (harris_avg, trump_avg)
          end
      end
  end.

(** One of the two blocks of [polling_history_change]: the four window
    averages for a given [n]. *)
Definition window_averages (harris trump : list float) (n : Z)
  : result (float * float * float * float) :=
  match py_truediv (py_sum (slice_to harris n)) n with
  | Raise e => Raise e
  | Ok harris_early_avg =>
      match py_truediv (py_sum (slice_to trump n)) n with
      | Raise e => Raise e
      | Ok trump_early_avg =>
          match py_truediv (py_sum (slice_from harris (- n))) n with
          | Raise e => Raise e
          | Ok harris_late_avg =>
              match py_truediv (py_sum (slice_from trump (- n))) n with
              | Raise e => Raise e
              | Ok trump_late_avg =>
                  Ok (harris_early_avg, trump_early_avg,
                      harris_late_avg, trump_late_avg)
              end
          end
      end
  end.

(** [polling_history_change], with its block written twice as in the
    source: the second block rebinds every name of the first. *)
Definition polling_history_change (self : PollReader)
  : result (float * float) :=
  let harris := Harris_result (data_dict self) in
  let trump := Trump_result (data_dict self) in
  let n := Z.min (Z.min 30 (len harris)) (len trump) in
  if n =? 0 then Ok (f0, f0)
  else
    match window_averages harris trump n with
    | Raise e => Raise e
    | Ok _ =>
        let harris := Harris_result (data_dict self) in
        let trump := Trump_result (data_dict self) in
        let n := Z.min (Z.min 30 (len harris)) (len trump) in
        if n =? 0 then Ok (f0, f0)
        else
          match window_averages harris trump n with
          | Raise e => Raise e
          | Ok (harris_early_avg, trump_early_avg,
                harris_late_avg, trump_late_avg) =>
              let harris_change :=
                float_sub harris_early_avg harris_late_avg in
              let trump_change :=
                float_sub trump_early_avg trump_late_avg in
              Ok (harris_change, trump_change)
          end
    end.

(** The version with the block written once, which the duplicated one is
    compared with. *)
Definition polling_history_change_once (self : PollReader)
  : result (float * float) :=
  let harris := Harris_result (data_dict self) in
  let trump := Trump_result (data_dict self) in
  let n := Z.min (Z.min 30 (len harris)) (len trump) in
  if n =? 0 then Ok (f0, f0)
  else
    match window_averages harris trump n with
    | Raise e => Raise e
    | Ok (harris_early_avg, trump_early_avg,
          harris_late_avg, trump_late_avg) =>
        Ok (float_sub harris_early_avg harris_late_avg,
            float_sub trump_early_avg trump_late_avg)
    end.

(** *** Formatting with [:.2f] and [:+.2f] *)

(** [f"{x:.2f}"] and, with [plus], [f"{x:+.2f}"]: the exact binary value
    rounded to two decimal places, ties to even; with [plus] a value that is
    not negative carries a plus sign. *)
Definition format_2f (plus : bool) (x : float) : string :=
  let sign (s : bool) : string :=
    if s then "-" else if plus then "+" else "" in
  match x with
  | S754_nan => (sign false ++ "nan")%string
  | S754_infinity s => (sign s ++ "inf")%string
  | S754_zero s => (sign s ++ "0.00")%string
  | S754_finite s m e =>
      let hundredths :=
        match e with
        | Zneg k => round_half_even_div (100 * Zpos m) (Zpos (2 ^ k))
        | _ => 100 * Zpos m * 2 ^ e
        end in
      (sign s ++ str_of_Z (hundredths / 100) ++ "."
         ++ str_of_Z (hundredths / 10 mod 10)
         ++ str_of_Z (hundredths mod 10))%string
  end.

(** ** The report *)

(** [main], given the lines of the file that [PollReader('polling_data.csv')]
    reads: how it ends, and the lines it has printed by then, one per call
    of [print]. *)
Definition main (lines : list string) : result unit * list string :=
  let poll_reader := init lines in
  match build_data_dict poll_reader with
  | (Raise e, _) => (Raise e, [])
  | (Ok _, poll_reader) =>
      match highest_polling_candidate poll_reader with
      | Raise e => (Raise e, [])
      | Ok highest_polling =>
          let out1 :=
            [("Highest Polling Candidate: " ++ highest_polling)%string] in
          match likely_voter_polling_average poll_reader with
          | Raise e => (Raise e, out1)
          | Ok (harris_avg, trump_avg) =>
              let out2 :=
                out1
                ++ ["Likely Voter Polling Average:";
                    ("  Harris: "
                       ++ format_2f false (float_mul harris_avg f100)
                       ++ "%")%string;
                    ("  Trump: "
                       ++ format_2f false (float_mul trump_avg f100)
                       ++ "%")%string] in
              match polling_history_change poll_reader with
              | Raise e => (Raise e, out2)
              | Ok (harris_change, trump_change) =>
                  (Ok tt,
                   out2
                   ++ ["Polling History Change:";
                       ("  Harris: "
                          ++ format_2f true (float_mul harris_change f100)
                          ++ "%")%string;
                       ("  Trump: "
                          ++ format_2f true (float_mul trump_change f100)
                          ++ "%")%string])
              end
          end
      end
  end.

(** * Properties *)

(** ** Vocabulary of the statements *)

(** The trimmed fields of a row, and whether it passes the field-count
    check of [build_data_dict]. *)
Definition fields (row : string) : list string :=
  map PyStr.strip (PyStr.split_on ","%char (PyStr.strip row)).

Definition complete (row : string) : bool := negb (len (fields row) <? 5).

Definition field (i : nat) (row : string) : string :=
  nth i (fields row) EmptyString.

(** The six values that one complete row contributes. *)
Record poll_record : Type := {
  r_month : string;
  r_date : Z;
  r_sample : Z;
  r_sample_type : string;
  r_harris : float;
  r_trump : float
}.

(** The store with one more record. *)
Definition push (d : data_dict_t) (r : poll_record) : data_dict_t :=
  {| month := month d ++ [r_month r];
     date := date d ++ [r_date r];
     sample := sample d ++ [r_sample r];
     sample_type := sample_type d ++ [r_sample_type r];
     Harris_result := Harris_result d ++ [r_harris r];
     Trump_result := Trump_result d ++ [r_trump r] |}.

(** The label stored for the local [sample_type] of a row. *)
Definition stored_label (st : string) : string :=
  if String.eqb st "LV" then "likely voters" else "registered voters".

(** A complete row is read into the record [r]. *)
Definition reads (row : string) (r : poll_record) : Prop :=
  r_month r = field 0 row
  /\ py_int (field 1 row) = Ok (r_date r)
  /\ (exists st, sample_column (field 2 row) = Ok (r_sample r, st)
                 /\ r_sample_type r = stored_label st)
  /\ _to_fraction (field 3 row) = Ok (r_harris r)
  /\ _to_fraction (field 4 row) = Ok (r_trump r).

(** The exceptions that reading a row raises: [ValueError] from [int] and
    [float], [IndexError] from the first token of an empty sample
    descriptor. *)
Definition parse_error (e : exn) : Prop := e = ValueError \/ e = IndexError.

(** Some numeric field of the row does not parse. *)
Definition parse_fails (row : string) : Prop :=
  (exists e, py_int (field 1 row) = Raise e)
  \/ (exists e, sample_column (field 2 row) = Raise e)
  \/ (exists e, py_float (field 3 row) = Raise e)
  \/ (exists e, py_float (field 4 row) = Raise e).

(** [self] with another store. *)
Definition set_dict (self : PollReader) (d : data_dict_t) : PollReader :=
  {| raw_data := raw_data self; data_dict := d |}.

(** All six columns have the same length. *)
Definition aligned (d : data_dict_t) : Prop :=
  List.length (date d) = List.length (month d)
  /\ List.length (sample d) = List.length (month d)
  /\ List.length (sample_type d) = List.length (month d)
  /\ List.length (Harris_result d) = List.length (month d)
  /\ List.length (Trump_result d) = List.length (month d).

(** [self] is what a successful [build_data_dict] leaves of a fresh
    reader. *)
Definition built (self : PollReader) : Prop :=
  exists lines, build_data_dict (init lines) = (Ok tt, self).

(** What a build does to a fresh reader: how it ends and the store it
    leaves. *)
Definition build_outcome (lines : list string) : result unit * data_dict_t :=
  let '(r, self) := build_data_dict (init lines) in (r, data_dict self).

(** [self] with other raw lines; a method body is blind to the raw lines
    when it neither reads nor changes them. *)
Definition with_raw (self : PollReader) (raw : list string) : PollReader :=
  {| raw_data := raw; data_dict := data_dict self |}.

Definition raw_blind {A : Type} (m : M A) : Prop :=
  forall self raw,
    m (with_raw self raw) = let '(r, s) := m self in (r, with_raw s raw).

(** The arithmetic mean of a non-empty list of floats, as the source
    computes it: the sum divided by the number of items. *)
Definition mean (l : list float) : float :=
  float_div (py_sum l) (float_of_Z (len l)).

(** The last [n] items of a list. *)
Definition last_records {A : Type} (n : nat) (l : list A) : list A :=
  skipn (List.length l - n) l.

(** The number of records of a store. *)
Definition record_count (self : PollReader) : nat :=
  List.length (month (data_dict self)).

(** The comparison of [likely_voter_polling_average]: the stored label,
    lower-cased, is [likely voters]. *)
Definition is_likely (stype : string) : bool :=
  String.eqb (PyStr.lower stype) "likely voters".

(** The results of a column at the positions whose sample type is
    [likely voters]. *)
Definition likely_results (stypes : list string) (col : list float)
  : list float :=
  map snd (filter (fun p => is_likely (fst p)) (combine stypes col)).

(** The mean of a list, [0.0] for the empty list. *)
Definition mean_or_zero (l : list float) : float :=
  match l with
  | [] => f0
  | _ => mean l
  end.

(** [x] is NaN. *)
Definition is_nan (x : float) : bool :=
  match x with S754_nan => true | _ => false end.

(** The maximum of a column as [highest_polling_candidate] takes it:
    [0.0] for an empty column, and otherwise the result of the left-to-right
    scan of [max]. *)
Definition col_max (l : list float) : float :=
  match l with
  | [] => f0
  | x :: r => fold_left (fun m y => if float_gt y m then y else m) r x
  end.

(** The label of [highest_polling_candidate] for a name and a maximum. *)
Definition percent_label (name : string) (x : float) : string :=
  (name ++ " " ++ format_1f (float_mul x f100) ++ "%")%string.

(** The token begins with a minus sign. *)
Definition starts_with_minus (tok : string) : bool :=
  match tok with
  | String "-"%char _ => true
  | _ => false
  end.

(** What a complete row says about its stored sample size: it is what
    [int] reads from the first token of the sample descriptor, and it is
    not negative unless that token begins with a minus sign. *)
Definition sample_of_row (row : string) (n : Z) : Prop :=
  exists tok,
    hd_error (PyStr.split (field 2 row)) = Some tok
    /\ py_int tok = Ok n
    /\ (starts_with_minus tok = false -> 0 <= n).

(** What rounding a positive quantity of magnitude [mag] (the sum of the
    number of digits and of the exponent) may return: a zero; an infinity
    when [mag] reaches [emax]; or a valid finite float whose magnitude is at
    most [mag], or at most that of the least subnormal, or is [mag + 1] with
    a mantissa that is a power of two. *)
Definition rounded_from (sx : bool) (mag : Z) (x : float) : Prop :=
  match x with
  | S754_zero s => s = sx
  | S754_infinity s => s = sx /\ emax <= mag
  | S754_nan => False
  | S754_finite s m e =>
      s = sx /\ bounded prec emax m e = true
      /\ (Zdigits2 (Zpos m) + e <= Z.max mag (-1073)
          \/ (Zdigits2 (Zpos m) + e = mag + 1
              /\ Zpos m = 2 ^ (Zdigits2 (Zpos m) - 1)))
  end.

(** The last step of [binary_round_aux]: the float made of the final
    mantissa and exponent. *)
Definition round_result (sx : bool) (m e : Z) : float :=
  match m with
  | Z0 => S754_zero sx
  | Zpos p => if e <=? emax - prec then S754_finite sx p e
              else S754_infinity sx
  | Zneg _ => S754_nan
  end.

(** [x] lies in the interval from [0.0] to [1.0]. *)
Definition in_unit (x : float) : Prop :=
  float_le f0 x = true /\ float_le x f1 = true.

(** What a result field says about its stored fraction: with [v] the
    float that the field parses to, the fraction is [v / 100] when
    [v > 1.0] and [v] otherwise, and it lies in [[0, 1]] when [v] lies in
    [[0, 100]]. *)
Definition fraction_of_field (fld : string) (r : float) : Prop :=
  exists v,
    py_float fld = Ok v
    /\ r = (if float_gt v f1 then float_div v f100 else v)
    /\ (float_le f0 v = true -> float_le v f100 = true -> in_unit r).

(** The whole percentage [p] written as a percentage and as a fraction
    with two decimals: [55] and [0.55]. *)
Definition percent_notation (p : Z) : string := str_of_Z p.

Definition fraction_notation (p : Z) : string :=
  (str_of_Z (p / 100) ++ "." ++ str_of_Z (p / 10 mod 10)
     ++ str_of_Z (p mod 10))%string.

(** Two floats are the same datum (unlike [==], which equates the two
    zeros and tells NaN from itself). *)
Definition float_same (x y : float) : bool :=
  match x, y with
  | S754_zero s, S754_zero s' => Bool.eqb s s'
  | S754_infinity s, S754_infinity s' => Bool.eqb s s'
  | S754_nan, S754_nan => true
  | S754_finite s m e, S754_finite s' m' e' =>
      Bool.eqb s s' && Pos.eqb m m' && Z.eqb e e'
  | _, _ => false
  end.

(** Both notations of [p] are accepted and store the binary64 nearest to
    [p / 100]. *)
Definition notations_agree (p : Z) : bool :=
  match _to_fraction (percent_notation p), _to_fraction (fraction_notation p)
  with
  | Ok a, Ok b =>
      float_same a b && float_same a (float_div (float_of_Z p) f100)
  | _, _ => false
  end.

(** The store with one more item in one column. *)
Definition add_month (d : data_dict_t) (v : string) : data_dict_t :=
  {| month := month d ++ [v]; date := date d; sample := sample d;
     sample_type := sample_type d; Harris_result := Harris_result d;
     Trump_result := Trump_result d |}.

Definition add_date (d : data_dict_t) (v : Z) : data_dict_t :=
  {| month := month d; date := date d ++ [v]; sample := sample d;
     sample_type := sample_type d; Harris_result := Harris_result d;
     Trump_result := Trump_result d |}.

Definition add_sample (d : data_dict_t) (v : Z) : data_dict_t :=
  {| month := month d; date := date d; sample := sample d ++ [v];
     sample_type := sample_type d; Harris_result := Harris_result d;
     Trump_result := Trump_result d |}.

Definition add_sample_type (d : data_dict_t) (v : string) : data_dict_t :=
  {| month := month d; date := date d; sample := sample d;
     sample_type := sample_type d ++ [v];
     Harris_result := Harris_result d; Trump_result := Trump_result d |}.

Definition add_Harris_result (d : data_dict_t) (v : float) : data_dict_t :=
  {| month := month d; date := date d; sample := sample d;
     sample_type := sample_type d;
     Harris_result := Harris_result d ++ [v];
     Trump_result := Trump_result d |}.

Definition add_Trump_result (d : data_dict_t) (v : float) : data_dict_t :=
  {| month := month d; date := date d; sample := sample d;
     sample_type := sample_type d; Harris_result := Harris_result d;
     Trump_result := Trump_result d ++ [v] |}.

(** What the loop body does to the store for a complete row, written in
    direct style: the store at the point where the row raised, or after
    its last append. *)
Definition row_trace (row : string) (d : data_dict_t)
  : result unit * data_dict_t :=
  let d1 := add_month d (field 0 row) in
  match py_int (field 1 row) with
  | Raise e => (Raise e, d1)
  | Ok dt =>
      let d2 := add_date d1 dt in
      match sample_column (field 2 row) with
      | Raise e => (Raise e, d2)
      | Ok st =>
          let d3 :=
            add_sample_type (add_sample d2 (fst st)) (stored_label (snd st)) in
          match _to_fraction (field 3 row) with
          | Raise e => (Raise e, d3)
          | Ok h =>
              let d4 := add_Harris_result d3 h in
              match _to_fraction (field 4 row) with
              | Raise e => (Raise e, d4)
              | Ok t => (Ok tt, add_Trump_result d4 t)
              end
          end
      end
  end.

(** The sample descriptor of the row has exactly two tokens and the second
    is [LV]. *)
Definition two_tokens_LV (row : string) : bool :=
  match PyStr.split (field 2 row) with
  | [_; t] => String.eqb t "LV"
  | _ => false
  end.

(** Two stores put end to end, column by column. *)
Definition dict_app (d d' : data_dict_t) : data_dict_t :=
  {| month := month d ++ month d';
     date := date d ++ date d';
     sample := sample d ++ sample d';
     sample_type := sample_type d ++ sample_type d';
     Harris_result := Harris_result d ++ Harris_result d';
     Trump_result := Trump_result d ++ Trump_result d' |}.

(** The store of a fresh reader. *)
Definition empty_dict : data_dict_t := data_dict (init []).

(** The column lengths of a store in which the last record may be
    partial: they do not increase in the order of the appends, and the first
    column is at most one item ahead of the last. *)
Definition staggered (d : data_dict_t) : Prop :=
  (List.length (Trump_result d) <= List.length (Harris_result d))%nat
  /\ (List.length (Harris_result d) <= List.length (sample_type d))%nat
  /\ List.length (sample_type d) = List.length (sample d)
  /\ (List.length (sample d) <= List.length (date d))%nat
  /\ (List.length (date d) <= List.length (month d))%nat
  /\ List.length (month d) = S (List.length (Trump_result d)).

(** [x] is a zero or a finite number. *)
Definition is_finite (x : float) : bool :=
  match x with
  | S754_zero _ | S754_finite _ _ _ => true
  | _ => false
  end.

(** A position of the sample type column that holds a likely-voter label
    and is not a position of the Harris or of the Trump column. *)
Definition likely_out_of_range (d : data_dict_t) (k : nat) : Prop :=
  exists st,
    nth_error (sample_type d) k = Some st
    /\ is_likely st = true
    /\ ((List.length (Harris_result d) <= k)%nat
        \/ (List.length (Trump_result d) <= k)%nat).

(** The number that the label of [highest_polling_candidate] shows: the
    larger of the two column maxima, the Harris one when neither is
    larger. *)
Definition shown_max (self : PollReader) : float :=
  let max_harris := col_max (Harris_result (data_dict self)) in
  let max_trump := col_max (Trump_result (data_dict self)) in
  if float_gt max_harris max_trump then max_harris
  else if float_gt max_trump max_harris then max_trump
  else max_harris.

(** The name that the label shows. *)
Definition shown_name (self : PollReader) : string :=
  let max_harris := col_max (Harris_result (data_dict self)) in
  let max_trump := col_max (Trump_result (data_dict self)) in
  if float_gt max_harris max_trump then "Harris"
  else if float_gt max_trump max_harris then "Trump"
  else "EVEN".

(** The seven lines of the report, from the results of the three
    queries. *)
Definition report_lines (label : string) (avgs changes : float * float)
  : list string :=
  [("Highest Polling Candidate: " ++ label)%string;
   "Likely Voter Polling Average:";
   ("  Harris: " ++ format_2f false (float_mul (fst avgs) f100) ++ "%")%string;
   ("  Trump: " ++ format_2f false (float_mul (snd avgs) f100) ++ "%")%string;
   "Polling History Change:";
   ("  Harris: " ++ format_2f true (float_mul (fst changes) f100)
      ++ "%")%string;
   ("  Trump: " ++ format_2f true (float_mul (snd changes) f100)
      ++ "%")%string].

(** The label that the build stores for a row. *)
Definition label_of_row (row : string) : string :=
  if two_tokens_LV row then "likely voters" else "registered voters".

(** The results of a column at the positions of the rows whose sample
    descriptor is a size followed by [LV]. *)
Definition results_of_LV_rows (rows : list string) (col : list float)
  : list float :=
  map snd (filter (fun p => two_tokens_LV (fst p)) (combine rows col)).

(** ** The rows of a build *)

Lemma getitem_nth {A : Type} (l : list A) (i : nat) (dflt : A) :
  (i < List.length l)%nat -> getitem l i = Ok (nth i l dflt).
Proof.
  intros Hi. unfold getitem.
  rewrite (nth_error_nth' l dflt Hi). reflexivity.
Qed.

Lemma complete_length (row : string) :
  complete row = true -> (5 <= List.length (fields row))%nat.
Proof.
  unfold complete, len. intros H.
  apply negb_true_iff, Z.ltb_ge in H. lia.
Qed.

Lemma complete_getitem (row : string) (i : nat) :
  complete row = true -> (i < 5)%nat ->
  getitem (fields row) i = Ok (field i row).
Proof.
  intros Hc Hi. apply getitem_nth.
  pose proof (complete_length row Hc). lia.
Qed.

Lemma to_fraction_raise (s : string) (e : exn) :
  py_float s = Raise e -> _to_fraction s = Raise e.
Proof. unfold _to_fraction. intros ->. reflexivity. Qed.

Lemma to_fraction_ok (s : string) (r : float) :
  _to_fraction s = Ok r ->
  exists v, py_float s = Ok v
            /\ r = if float_gt v f1 then float_div v f100 else v.
Proof.
  unfold _to_fraction. destruct (py_float s) as [v|e]; [|discriminate].
  intros [= <-]. exists v. split; reflexivity.
Qed.

(** An incomplete row leaves [self] as it is. *)
Lemma build_row_skip (row : string) (self : PollReader) :
  complete row = false -> build_row row self = (Ok tt, self).
Proof.
  unfold complete, build_row, fields. intros H.
  apply negb_false_iff in H. rewrite H. reflexivity.
Qed.

Lemma bind_lift_ok {A B : Type} (a : A) (k : A -> M B) (self : PollReader) :
  bind (lift (Ok a)) k self = k a self.
Proof. reflexivity. Qed.

Lemma bind_lift_raise {A B : Type} (e : exn) (k : A -> M B)
    (self : PollReader) :
  bind (lift (Raise e)) k self = (Raise e, self).
Proof. reflexivity. Qed.

Lemma bind_with_dict {B : Type} (f : data_dict_t -> data_dict_t)
    (k : unit -> M B) (self : PollReader) :
  bind (with_dict f) k self = k tt (set_dict self (f (data_dict self))).
Proof. reflexivity. Qed.

(** One statement of a row: an append, or a lookup that succeeded. *)
Ltac row_step :=
  unfold append_month, append_date, append_sample, append_sample_type,
    append_Harris_result, append_Trump_result;
  rewrite ?bind_with_dict, ?bind_lift_ok; cbv beta.

Lemma py_int_raise (s : string) (e : exn) :
  py_int s = Raise e -> e = ValueError.
Proof.
  unfold py_int. destruct (PyStr.scan_sign _) as [neg body].
  destruct (PyStr.scan_digitpart body) as [[|d ds] [|c r]];
    intros H; try discriminate; congruence.
Qed.

Lemma py_float_raise (s : string) (e : exn) :
  py_float s = Raise e -> e = ValueError.
Proof.
  unfold py_float.
  destruct (PyStr.scan_sign (PyStr.strip s)) as [neg body].
  destruct (_ || _); [discriminate|].
  destruct (String.eqb _ _); [discriminate|].
  destruct (PyStr.scan_digitpart body) as [ip r1].
  match goal with
  | |- context [let '(fp, r2) := ?t in _] => destruct t as [fp r2]
  end.
  assert (G : match scan_exponent r2 with
              | Ok (ex, EmptyString) =>
                  match PyStr.digits_value (ip ++ fp) with
                  | Zpos m =>
                      Ok (float_of_decimal neg m
                            (ex - Z.of_nat (List.length fp)))
                  | _ => Ok (S754_zero neg)
                  end
              | _ => Raise ValueError
              end = Raise e -> e = ValueError).
  { destruct (scan_exponent r2) as [[ex rest]|]; [|congruence].
    destruct rest; [|congruence].
    destruct (PyStr.digits_value (ip ++ fp)); discriminate. }
  destruct ip, fp; try exact G. congruence.
Qed.

Lemma to_fraction_raise_kind (s : string) (e : exn) :
  _to_fraction s = Raise e -> e = ValueError.
Proof.
  unfold _to_fraction. destruct (py_float s) as [v|e'] eqn:H; [discriminate|].
  intros [= <-]. apply (py_float_raise s), H.
Qed.

Lemma sample_column_raise (f : string) (e : exn) :
  sample_column f = Raise e -> parse_error e.
Proof.
  unfold sample_column, getitem, parse_error.
  destruct (PyStr.split f) as [|tok rest]; cbn [nth_error].
  - destruct (len [] =? 2); intros [= <-]; auto.
  - destruct (py_int tok) as [v|e'] eqn:H.
    + destruct (len (tok :: rest) =? 2); [|discriminate].
      destruct rest; cbn [nth_error]; [intros [= <-]; auto | discriminate].
    + apply py_int_raise in H. subst e'.
      destruct (len (tok :: rest) =? 2); intros [= <-]; auto.
Qed.

(** A complete row either is read into a record that is pushed, or
    raises. *)
Lemma build_row_complete (row : string) (self : PollReader) :
  complete row = true ->
  (exists r, reads row r
             /\ build_row row self
                = (Ok tt, set_dict self (push (data_dict self) r)))
  \/ (parse_fails row
      /\ exists e self', build_row row self = (Raise e, self')
                         /\ parse_error e).
Proof.
  intros Hc.
  assert (Hlt : (len (fields row) <? 5) = false)
    by (apply negb_true_iff; exact Hc).
  unfold build_row. fold (fields row). rewrite Hlt.
  rewrite (complete_getitem row 0 Hc) by lia. row_step.
  rewrite (complete_getitem row 1 Hc) by lia. row_step.
  destruct (py_int (field 1 row)) as [d|e] eqn:Hd.
  2:{ right. split; [left; eauto|]. rewrite bind_lift_raise.
      apply py_int_raise in Hd. subst e. unfold parse_error. eauto. }
  row_step.
  rewrite (complete_getitem row 2 Hc) by lia. row_step.
  destruct (sample_column (field 2 row)) as [[ss st]|e] eqn:Hs.
  2:{ right. split; [right; left; eauto|]. rewrite bind_lift_raise.
      apply sample_column_raise in Hs. eauto. }
  row_step.
  rewrite (complete_getitem row 3 Hc) by lia. row_step.
  destruct (_to_fraction (field 3 row)) as [h|e] eqn:Hh.
  2:{ right. split.
      - right; right; left. unfold _to_fraction in Hh.
        destruct (py_float (field 3 row)); [discriminate | eauto].
      - rewrite bind_lift_raise. apply to_fraction_raise_kind in Hh.
        subst e. unfold parse_error. eauto. }
  row_step.
  rewrite (complete_getitem row 4 Hc) by lia. row_step.
  destruct (_to_fraction (field 4 row)) as [t|e] eqn:Ht.
  2:{ right. split.
      - right; right; right. unfold _to_fraction in Ht.
        destruct (py_float (field 4 row)); [discriminate | eauto].
      - rewrite bind_lift_raise. apply to_fraction_raise_kind in Ht.
        subst e. unfold parse_error. eauto. }
  row_step.
  left.
  exists {| r_month := field 0 row; r_date := d; r_sample := ss;
            r_sample_type := stored_label st; r_harris := h; r_trump := t |}.
  split.
  - unfold reads; cbn. repeat split; try assumption. exists st. auto.
  - reflexivity.
Qed.

(** ** The loop of a build *)

(** Past the header the position of a row does not matter. *)
Lemma build_loop_succ (i j : nat) (rows : list string) (self : PollReader) :
  build_loop (S i) rows self = build_loop (S j) rows self.
Proof.
  revert i j self. induction rows as [|row rest IH]; intros i j self.
  - reflexivity.
  - cbn [build_loop Nat.eqb]. unfold bind.
    destruct (build_row row self) as [[[]|e] s']; [|reflexivity].
    apply IH.
Qed.

Lemma build_loop_app (i : nat) (pre post : list string) (self : PollReader) :
  build_loop (S i) (pre ++ post) self
  = match build_loop (S i) pre self with
    | (Ok _, s') => build_loop (S i) post s'
    | (Raise e, s') => (Raise e, s')
    end.
Proof.
  revert i self. induction pre as [|row rest IH]; intros i self.
  - reflexivity.
  - cbn [app build_loop Nat.eqb]. unfold bind.
    destruct (build_row row self) as [[[]|e] s']; [|reflexivity].
    rewrite IH.
    destruct (build_loop (S (S i)) rest s') as [[[]|e] s'']; [|reflexivity].
    apply build_loop_succ.
Qed.

Lemma set_dict_id (self : PollReader) : set_dict self (data_dict self) = self.
Proof. destruct self; reflexivity. Qed.

Lemma set_dict_twice (self : PollReader) (d d' : data_dict_t) :
  set_dict (set_dict self d) d' = set_dict self d'.
Proof. reflexivity. Qed.

(** A successful run of the loop pushes one record per complete row, in
    the order of the rows. *)
Lemma build_loop_ok (i : nat) (rows : list string) (self self' : PollReader) :
  build_loop (S i) rows self = (Ok tt, self') ->
  exists recs,
    Forall2 reads (filter complete rows) recs
    /\ self' = set_dict self (fold_left push recs (data_dict self)).
Proof.
  revert i self. induction rows as [|row rest IH]; intros i self H.
  - cbn in H. injection H as <-. exists []. split; [constructor|].
    symmetry; apply set_dict_id.
  - cbn [build_loop Nat.eqb] in H. unfold bind in H. cbn [filter].
    destruct (complete row) eqn:Hc.
    + destruct (build_row_complete row self Hc)
        as [(r & Hr & Hb) | (_ & e & s' & Hb & _)]; rewrite Hb in H.
      * apply IH in H. destruct H as (recs & Hrecs & ->).
        exists (r :: recs). split; [constructor; assumption|].
        reflexivity.
      * discriminate.
    + rewrite (build_row_skip row self Hc) in H.
      apply IH in H. exact H.
Qed.

Lemma build_data_dict_ok (lines : list string) (self : PollReader) :
  build_data_dict (init lines) = (Ok tt, self) ->
  exists recs,
    Forall2 reads (filter complete (tl lines)) recs
    /\ self = set_dict (init lines)
                (fold_left push recs (data_dict (init lines))).
Proof.
  unfold build_data_dict. cbn [raw_data init].
  destruct lines as [|hdr rest].
  - cbn. intros [= <-]. exists []. split; [constructor | reflexivity].
  - cbn [build_loop Nat.eqb tl]. unfold bind, ret.
    intros H. apply build_loop_ok in H. exact H.
Qed.

(** The columns after pushing a list of records. *)
Lemma fold_push_columns (recs : list poll_record) (d : data_dict_t) :
  let d' := fold_left push recs d in
  month d' = month d ++ map r_month recs
  /\ date d' = date d ++ map r_date recs
  /\ sample d' = sample d ++ map r_sample recs
  /\ sample_type d' = sample_type d ++ map r_sample_type recs
  /\ Harris_result d' = Harris_result d ++ map r_harris recs
  /\ Trump_result d' = Trump_result d ++ map r_trump recs.
Proof.
  revert d. induction recs as [|r recs IH]; intros d; cbn.
  - rewrite !app_nil_r. repeat split.
  - specialize (IH (push d r)). cbn in IH.
    destruct IH as (H1 & H2 & H3 & H4 & H5 & H6).
    rewrite H1, H2, H3, H4, H5, H6. cbn. rewrite <- !app_assoc.
    repeat split.
Qed.

(** The store of a successful build, column by column. *)
Lemma built_columns (lines : list string) (self : PollReader) :
  build_data_dict (init lines) = (Ok tt, self) ->
  exists recs,
    Forall2 reads (filter complete (tl lines)) recs
    /\ month (data_dict self) = map r_month recs
    /\ date (data_dict self) = map r_date recs
    /\ sample (data_dict self) = map r_sample recs
    /\ sample_type (data_dict self) = map r_sample_type recs
    /\ Harris_result (data_dict self) = map r_harris recs
    /\ Trump_result (data_dict self) = map r_trump recs.
Proof.
  intros H. apply build_data_dict_ok in H.
  destruct H as (recs & Hrecs & ->). exists recs.
  split; [assumption|]. cbn [set_dict data_dict].
  apply (fold_push_columns recs (data_dict (init lines))).
Qed.

Lemma built_aligned (self : PollReader) :
  built self -> aligned (data_dict self).
Proof.
  intros [lines H]. apply built_columns in H.
  destruct H as (recs & _ & H1 & H2 & H3 & H4 & H5 & H6).
  unfold aligned. rewrite H1, H2, H3, H4, H5, H6.
  rewrite !length_map. repeat split.
Qed.

Lemma reads_not_fails (row : string) (r : poll_record) :
  reads row r -> ~ parse_fails row.
Proof.
  intros (_ & Hd & (st & Hs & _) & Hh & Ht) Hf.
  apply to_fraction_ok in Hh, Ht.
  destruct Hh as (vh & Hh & _), Ht as (vt & Ht & _).
  destruct Hf as [[e H]|[[e H]|[[e H]|[e H]]]]; congruence.
Qed.

Lemma build_row_fails (row : string) (self : PollReader) :
  complete row = true -> parse_fails row ->
  exists e self', build_row row self = (Raise e, self') /\ parse_error e.
Proof.
  intros Hc Hf.
  destruct (build_row_complete row self Hc) as [(r & Hr & _) | (_ & H)].
  - exfalso. exact (reads_not_fails row r Hr Hf).
  - exact H.
Qed.

(** Whatever the loop raises is a parse error. *)
Lemma build_loop_raise (i : nat) (rows : list string) (self self' : PollReader)
    (e : exn) :
  build_loop (S i) rows self = (Raise e, self') -> parse_error e.
Proof.
  revert i self. induction rows as [|row rest IH]; intros i self H.
  - discriminate.
  - cbn [build_loop Nat.eqb] in H. unfold bind in H.
    destruct (complete row) eqn:Hc.
    + destruct (build_row_complete row self Hc)
        as [(r & _ & Hb) | (_ & e' & s' & Hb & He)]; rewrite Hb in H.
      * apply IH in H. exact H.
      * injection H as <- _. exact He.
    + rewrite (build_row_skip row self Hc) in H. apply IH in H. exact H.
Qed.

Lemma build_outcome_cons (hdr : string) (rest : list string) :
  build_outcome (hdr :: rest)
  = let '(r, self) := build_loop 1 rest (init (hdr :: rest)) in
    (r, data_dict self).
Proof. reflexivity. Qed.

Lemma raw_blind_ret {A : Type} (a : A) : raw_blind (ret a).
Proof. intros self raw. reflexivity. Qed.

Lemma raw_blind_lift {A : Type} (r : result A) : raw_blind (lift r).
Proof. intros self raw. reflexivity. Qed.

Lemma raw_blind_with_dict (f : data_dict_t -> data_dict_t) :
  raw_blind (with_dict f).
Proof. intros self raw. reflexivity. Qed.

Lemma raw_blind_bind {A B : Type} (m : M A) (k : A -> M B) :
  raw_blind m -> (forall a, raw_blind (k a)) -> raw_blind (bind m k).
Proof.
  intros Hm Hk self raw. unfold bind. rewrite Hm.
  destruct (m self) as [[a|e] s']; [apply Hk | reflexivity].
Qed.

Lemma build_row_raw (row : string) : raw_blind (build_row row).
Proof.
  unfold build_row. destruct (len _ <? 5); [apply raw_blind_ret|].
  unfold append_month, append_date, append_sample, append_sample_type,
    append_Harris_result, append_Trump_result.
  repeat first [ apply raw_blind_with_dict | apply raw_blind_lift
               | apply raw_blind_bind; [|intros ?] ].
Qed.

Lemma build_loop_raw (i : nat) (rows : list string) :
  raw_blind (build_loop (S i) rows).
Proof.
  revert i. induction rows as [|row rest IH]; intros i.
  - apply raw_blind_ret.
  - cbn [build_loop Nat.eqb]. apply raw_blind_bind.
    + apply build_row_raw.
    + intros _. apply IH.
Qed.

Lemma build_outcome_raw (hdr hdr' : string) (rest rest' : list string) :
  build_outcome (hdr :: rest)
  = let '(r, s) := build_loop 1 rest (init (hdr' :: rest')) in
    (r, data_dict s).
Proof.
  rewrite build_outcome_cons.
  change (init (hdr :: rest))
    with (with_raw (init (hdr' :: rest')) (hdr :: rest)).
  rewrite build_loop_raw.
  destruct (build_loop 1 rest (init (hdr' :: rest'))) as [r s]. reflexivity.
Qed.

(** ** C8: incomplete rows are skipped, malformed rows abort the build *)

(** C8. The first line is never read; a later row with fewer than five
    trimmed fields changes neither the outcome nor the store; a later row
    with at least five fields of which a numeric field does not parse makes
    the build raise a parse error, whatever comes before it, and nothing
    after it is looked at. *)
Theorem C8_skip_incomplete_abort_malformed :
  (forall hdr, build_outcome [hdr] = (Ok tt, data_dict (init [])))
  /\ (forall hdr hdr' rest,
         build_outcome (hdr :: rest) = build_outcome (hdr' :: rest))
  /\ (forall hdr pre row post,
         complete row = false ->
         build_outcome (hdr :: pre ++ row :: post)
         = build_outcome (hdr :: pre ++ post))
  /\ (forall hdr pre row post,
         complete row = true -> parse_fails row ->
         (exists e, fst (build_outcome (hdr :: pre ++ row :: post)) = Raise e
                    /\ parse_error e)
         /\ build_outcome (hdr :: pre ++ row :: post)
            = build_outcome (hdr :: pre ++ [row])).
Proof.
  split; [reflexivity|]. split; [|split].
  - intros hdr hdr' rest.
    rewrite (build_outcome_raw hdr hdr' rest rest).
    rewrite build_outcome_cons. reflexivity.
  - intros hdr pre row post Hc.
    rewrite (build_outcome_raw hdr hdr (pre ++ row :: post) (pre ++ post)).
    rewrite build_outcome_cons, !build_loop_app.
    destruct (build_loop 1 pre (init (hdr :: pre ++ post)))
      as [[[]|e] s']; [|reflexivity].
    cbn [build_loop Nat.eqb]. unfold bind.
    rewrite (build_row_skip row s' Hc).
    rewrite (build_loop_succ 1 0). reflexivity.
  - intros hdr pre row post Hc Hf.
    rewrite (build_outcome_raw hdr hdr (pre ++ row :: post) (pre ++ [row])).
    rewrite build_outcome_cons, !build_loop_app.
    destruct (build_loop 1 pre (init (hdr :: pre ++ [row])))
      as [[[]|e] s'] eqn:Hpre.
    + cbn [build_loop Nat.eqb]. unfold bind.
      destruct (build_row_fails row s' Hc Hf) as (e & s'' & -> & He).
      split; [exists e; split; [reflexivity | exact He] | reflexivity].
    + apply build_loop_raise in Hpre.
      split; [exists e; split; [reflexivity | exact Hpre] | reflexivity].
Qed.

(** C8 at work: an empty third line is skipped, and a row whose date is
    not a number aborts the build. *)
Lemma C8_skip_incomplete_abort_malformed_witness :
  build_outcome (["h"; "Oct,1,1000 LV,55,45"] ++ "" :: ["Oct,2,900 RV,50,50"])
  = build_outcome (["h"; "Oct,1,1000 LV,55,45"] ++ ["Oct,2,900 RV,50,50"])
  /\ ((exists e,
          fst (build_outcome
                 ("h" :: ["Oct,1,1000 LV,55,45"]
                    ++ "Oct,x,900 RV,50,50" :: ["Oct,3,900 RV,50,50"]))
          = Raise e /\ parse_error e)
      /\ build_outcome
           ("h" :: ["Oct,1,1000 LV,55,45"]
              ++ "Oct,x,900 RV,50,50" :: ["Oct,3,900 RV,50,50"])
         = build_outcome
             ("h" :: ["Oct,1,1000 LV,55,45"] ++ ["Oct,x,900 RV,50,50"])).
Proof.
  destruct C8_skip_incomplete_abort_malformed as (_ & _ & Hskip & Hfail).
  split.
  - apply (Hskip "h" ["Oct,1,1000 LV,55,45"] "" ["Oct,2,900 RV,50,50"]).
    reflexivity.
  - apply (Hfail "h" ["Oct,1,1000 LV,55,45"] "Oct,x,900 RV,50,50"
             ["Oct,3,900 RV,50,50"]).
    + reflexivity.
    + left. exists ValueError. reflexivity.
Defined.

(** ** C7: the columns stay aligned *)

Lemma push_aligned (d : data_dict_t) (recs : list poll_record) :
  aligned d -> aligned (fold_left push recs d).
Proof.
  intros (H1 & H2 & H3 & H4 & H5).
  destruct (fold_push_columns recs d) as (E1 & E2 & E3 & E4 & E5 & E6).
  unfold aligned. rewrite E1, E2, E3, E4, E5, E6.
  rewrite !length_app, !length_map. lia.
Qed.

(** C7. When [build_data_dict] returns normally on a reader whose six
    columns have equal length (a fresh reader in particular), the six
    columns have equal length afterwards. *)
Theorem C7_columns_aligned (self self' : PollReader) :
  aligned (data_dict self) ->
  build_data_dict self = (Ok tt, self') ->
  aligned (data_dict self').
Proof.
  intros Ha H. unfold build_data_dict in H.
  destruct (raw_data self) as [|hdr rest].
  - cbn in H. injection H as <-. exact Ha.
  - cbn [build_loop Nat.eqb] in H. unfold bind, ret in H.
    apply build_loop_ok in H. destruct H as (recs & _ & ->).
    cbn [set_dict data_dict]. apply push_aligned, Ha.
Qed.

Lemma C7_columns_aligned_witness :
  aligned
    (data_dict
       (snd (build_data_dict
               (init ["h"; "Oct,1,1000 LV,55,45"; "short"; "Oct,2,9 RV,5,5"])))).
Proof.
  apply (C7_columns_aligned
           (init ["h"; "Oct,1,1000 LV,55,45"; "short"; "Oct,2,9 RV,5,5"])).
  - repeat split.
  - vm_compute. reflexivity.
Defined.

(** ** C1: the stored sample type *)

(** No third label is ever stored: whatever the sample column holds, the
    stored label is one of the two below. *)
Lemma stored_label_two (st : string) :
  stored_label st = "likely voters" \/ stored_label st = "registered voters".
Proof. unfold stored_label. destruct (String.eqb st "LV"); auto. Qed.

Lemma built_sample_types (self : PollReader) :
  built self ->
  Forall (fun l => l = "likely voters" \/ l = "registered voters")
    (sample_type (data_dict self)).
Proof.
  intros [lines H]. apply built_columns in H.
  destruct H as (recs & Hrecs & _ & _ & _ & -> & _).
  apply Forall_map.
  induction Hrecs as [|row r rows recs Hr _ IH]; constructor; [|exact IH].
  destruct Hr as (_ & _ & (st & _ & ->) & _). apply stored_label_two.
Qed.

(** C1. On the scenario of the specification the build succeeds and
    the row with the second token [XX] is stored with the label
    [registered voters]; the label [unknown] is not stored. *)
Theorem C1_scenario_sample_types :
  build_outcome
    ["header"; "Oct,1,1000 LV,55,45"; "Oct,2,1000 RV,50,50";
     "Oct,3,900 XX,57.0,52"]
  = (Ok tt,
     {| month := ["Oct"; "Oct"; "Oct"];
        date := [1; 2; 3];
        sample := [1000; 1000; 900];
        sample_type :=
          ["likely voters"; "registered voters"; "registered voters"];
        Harris_result :=
          [S754_finite false 4953959590107546 (-53);
           S754_finite false 4503599627370496 (-53);
           S754_finite false 5134103575202365 (-53)];
        Trump_result :=
          [S754_finite false 8106479329266893 (-54);
           S754_finite false 4503599627370496 (-53);
           S754_finite false 4683743612465316 (-53)] |}).
Proof. vm_compute. reflexivity. Qed.

(** ** C10: the block written twice *)

(** C10. [polling_history_change], whose block computing [n] and the four
    window averages occurs twice, returns what the version with a single
    block returns, on every reader. *)
Theorem C10_duplicate_block_no_effect (self : PollReader) :
  polling_history_change self = polling_history_change_once self.
Proof.
  unfold polling_history_change, polling_history_change_once.
  destruct (Z.min (Z.min 30 (len (Harris_result (data_dict self))))
              (len (Trump_result (data_dict self))) =? 0); [reflexivity|].
  destruct (window_averages _ _ _) as [[[[a b] c] d]|e]; reflexivity.
Qed.

(** The same fact in the form the later proofs rewrite with. *)
Lemma history_change_single_block (self : PollReader) :
  polling_history_change self = polling_history_change_once self.
Proof.
  unfold polling_history_change, polling_history_change_once.
  destruct (_ =? 0); [reflexivity|].
  destruct (window_averages _ _ _) as [[[[a b] c] d]|e]; reflexivity.
Qed.

(** ** C3: the change between the early and the late window *)

Lemma slice_to_firstn {A : Type} (l : list A) (n : nat) :
  slice_to l (Z.of_nat n) = firstn n l.
Proof.
  unfold slice_to. destruct (Z.ltb_spec (Z.of_nat n) 0); [lia|].
  rewrite Nat2Z.id. reflexivity.
Qed.

Lemma slice_from_last {A : Type} (l : list A) (n : nat) :
  (0 < n)%nat -> slice_from l (- Z.of_nat n) = last_records n l.
Proof.
  intros Hn. unfold slice_from, last_records.
  destruct (Z.ltb_spec (- Z.of_nat n) 0); [|lia].
  f_equal. lia.
Qed.

Lemma len_firstn {A : Type} (l : list A) (n : nat) :
  (n <= List.length l)%nat -> len (firstn n l) = Z.of_nat n.
Proof. intros H. unfold len. rewrite length_firstn. lia. Qed.

Lemma len_last_records {A : Type} (l : list A) (n : nat) :
  (n <= List.length l)%nat -> len (last_records n l) = Z.of_nat n.
Proof. intros H. unfold len, last_records. rewrite length_skipn. lia. Qed.

Lemma py_truediv_nonzero (x : float) (n : Z) :
  n <> 0 -> py_truediv x n = Ok (float_div x (float_of_Z n)).
Proof.
  intros H. unfold py_truediv.
  destruct (Z.eqb_spec n 0); [contradiction | reflexivity].
Qed.

Lemma window_averages_means (harris trump : list float) (n : nat) :
  (0 < n)%nat ->
  (n <= List.length harris)%nat -> (n <= List.length trump)%nat ->
  window_averages harris trump (Z.of_nat n)
  = Ok (mean (firstn n harris), mean (firstn n trump),
        mean (last_records n harris), mean (last_records n trump)).
Proof.
  intros Hn Hh Ht. unfold window_averages, mean.
  rewrite !slice_to_firstn, !slice_from_last by assumption.
  rewrite !py_truediv_nonzero by lia.
  rewrite !len_firstn, !len_last_records by assumption.
  reflexivity.
Qed.

(** A record in the overlap of the two windows of a column: position [i]
    of the early window and position [i - (count - n)] of the late one. *)
Lemma windows_share {A : Type} (l : list A) (n i : nat) :
  (n <= List.length l)%nat ->
  (List.length l - n <= i < n)%nat ->
  exists a,
    nth_error l i = Some a
    /\ nth_error (firstn n l) i = Some a
    /\ nth_error (last_records n l) (i - (List.length l - n)) = Some a.
Proof.
  intros Hn Hi.
  destruct (nth_error l i) as [a|] eqn:Ha.
  - exists a. split; [reflexivity|]. split.
    + rewrite nth_error_firstn.
      destruct (Nat.ltb_spec i n); [exact Ha | lia].
    + unfold last_records. rewrite nth_error_skipn.
      replace (List.length l - n + (i - (List.length l - n)))%nat with i
        by lia.
      exact Ha.
  - apply nth_error_None in Ha. lia.
Qed.

(** C3. On a built store with [count] records and [n = min(30, count)]:
    if [n = 0] the result is [(0.0, 0.0)]; otherwise each change is the
    mean of the first [n] results minus the mean of the last [n] results of
    that candidate, each window holding exactly [n] results; and when
    [0 < count < 60] the windows overlap: every position from [count - n]
    to [n - 1] (there is at least one) is a record of both windows. *)
Theorem C3_history_change (self : PollReader) :
  built self ->
  let harris := Harris_result (data_dict self) in
  let trump := Trump_result (data_dict self) in
  let count := record_count self in
  let n := Nat.min 30 count in
  (n = 0%nat -> polling_history_change self = Ok (f0, f0))
  /\ (n <> 0%nat ->
      polling_history_change self
      = Ok (float_sub (mean (firstn n harris)) (mean (last_records n harris)),
            float_sub (mean (firstn n trump)) (mean (last_records n trump)))
      /\ List.length (firstn n harris) = n
      /\ List.length (last_records n harris) = n
      /\ List.length (firstn n trump) = n
      /\ List.length (last_records n trump) = n)
  /\ ((0 < count < 60)%nat ->
      (count - n < n)%nat
      /\ forall i, (count - n <= i < n)%nat ->
           (exists h, nth_error harris i = Some h
                      /\ nth_error (firstn n harris) i = Some h
                      /\ nth_error (last_records n harris) (i - (count - n))
                         = Some h)
           /\ (exists t, nth_error trump i = Some t
                         /\ nth_error (firstn n trump) i = Some t
                         /\ nth_error (last_records n trump) (i - (count - n))
                            = Some t)).
Proof.
  intros Hb harris trump count n.
  destruct (built_aligned self Hb) as (_ & _ & _ & Hh & Ht).
  fold harris in Hh. fold trump in Ht. fold (record_count self) in Hh, Ht.
  fold count in Hh, Ht.
  assert (HnZ : Z.min (Z.min 30 (len harris)) (len trump) = Z.of_nat n).
  { unfold len. rewrite Hh, Ht. subst n. lia. }
  assert (Hle : (n <= count)%nat) by (subst n; lia).
  split; [|split].
  - intros Hn. unfold polling_history_change.
    fold harris trump. rewrite HnZ, Hn. reflexivity.
  - intros Hn. split.
    + rewrite history_change_single_block.
      unfold polling_history_change_once. fold harris trump. rewrite HnZ.
      destruct (Z.eqb_spec (Z.of_nat n) 0); [lia|].
      rewrite window_averages_means by lia. reflexivity.
    + unfold last_records.
      rewrite !length_firstn, !length_skipn. lia.
  - intros Hc. split; [subst n; lia|].
    intros i Hi. split.
    + rewrite <- Hh. apply windows_share; lia.
    + rewrite <- Ht. apply windows_share; lia.
Qed.

Lemma C3_history_change_witness :
  polling_history_change
    (snd (build_data_dict
            (init ["h"; "Oct,1,1000 LV,55,45"; "Oct,2,9 RV,50,52"])))
  = Ok (f0, f0).
Proof.
  pose proof
    (C3_history_change
       (snd (build_data_dict
               (init ["h"; "Oct,1,1000 LV,55,45"; "Oct,2,9 RV,50,52"])))) as H.
  destruct H as (_ & (H & _) & _).
  - exists ["h"; "Oct,1,1000 LV,55,45"; "Oct,2,9 RV,50,52"].
    vm_compute. reflexivity.
  - vm_compute. discriminate.
  - rewrite H. vm_compute. reflexivity.
Defined.

(** ** C4: the average among likely voters *)

Lemma avg_or_zero_mean (l : list float) : avg_or_zero l = Ok (mean_or_zero l).
Proof.
  destruct l as [|x l]; [reflexivity|].
  unfold avg_or_zero, mean_or_zero, mean.
  apply py_truediv_nonzero. unfold len. cbn [List.length]. lia.
Qed.

Lemma skipn_cons_nth {A : Type} (l : list A) (i : nat) (a : A) :
  nth_error l i = Some a -> skipn i l = a :: skipn (S i) l.
Proof.
  revert i. induction l as [|x l IH]; intros [|i] H; try discriminate.
  - injection H as ->. reflexivity.
  - cbn in H. apply IH in H. exact H.
Qed.

Lemma likely_loop_filter (d : data_dict_t) (stypes : list string) :
  forall (i : nat) (hl tl : list float),
    (i + List.length stypes <= List.length (Harris_result d))%nat ->
    (i + List.length stypes <= List.length (Trump_result d))%nat ->
    likely_loop d i stypes hl tl
    = Ok (hl ++ likely_results stypes (skipn i (Harris_result d)),
          tl ++ likely_results stypes (skipn i (Trump_result d))).
Proof.
  induction stypes as [|stype rest IH]; intros i hl tl Hh Ht.
  - cbn. rewrite !app_nil_r. reflexivity.
  - cbn [List.length] in Hh, Ht. cbn [likely_loop].
    destruct (nth_error (Harris_result d) i) as [h|] eqn:Eh;
      [|apply nth_error_None in Eh; lia].
    destruct (nth_error (Trump_result d) i) as [t|] eqn:Et;
      [|apply nth_error_None in Et; lia].
    rewrite (skipn_cons_nth _ _ _ Eh), (skipn_cons_nth _ _ _ Et).
    unfold likely_results. cbn [combine filter fst].
    fold (is_likely stype). unfold getitem. rewrite Eh, Et.
    destruct (is_likely stype); rewrite IH by lia; unfold likely_results.
    + cbn [map snd]. rewrite <- !app_assoc. reflexivity.
    + reflexivity.
Qed.

(** C4. On a built store the result is the pair of the means of the
    Harris and of the Trump results over the records whose stored sample
    type, lower-cased, equals [likely voters]; a component is [0.0] when no
    record is selected, and no division by zero is raised. *)
Theorem C4_likely_voter_average (self : PollReader) :
  built self ->
  let d := data_dict self in
  likely_voter_polling_average self
  = Ok (mean_or_zero (likely_results (sample_type d) (Harris_result d)),
        mean_or_zero (likely_results (sample_type d) (Trump_result d))).
Proof.
  intros Hb d.
  destruct (built_aligned self Hb) as (_ & _ & Hs & Hh & Ht).
  unfold likely_voter_polling_average. fold d.
  rewrite likely_loop_filter by (fold d in Hs, Hh, Ht; lia).
  cbn [skipn app]. rewrite !avg_or_zero_mean. reflexivity.
Qed.

Lemma C4_likely_voter_average_witness :
  likely_voter_polling_average
    (snd (build_data_dict
            (init ["h"; "Oct,1,1000 LV,55,45"; "Oct,2,9 RV,50,52"])))
  = Ok (float_div (float_of_Z 55) f100, float_div (float_of_Z 45) f100).
Proof.
  rewrite (C4_likely_voter_average
             (snd (build_data_dict
                     (init ["h"; "Oct,1,1000 LV,55,45"; "Oct,2,9 RV,50,52"])))).
  - vm_compute. reflexivity.
  - exists ["h"; "Oct,1,1000 LV,55,45"; "Oct,2,9 RV,50,52"].
    vm_compute. reflexivity.
Defined.

(** ** The order of binary64 *)

Ltac order_cases :=
  change (Pos.compare_cont Eq) with Pos.compare in *;
  repeat match goal with
         | H : context [Z.compare ?a ?b] |- _ =>
             destruct (Z.compare_spec a b)
         | |- context [Z.compare ?a ?b] =>
             destruct (Z.compare_spec a b)
         | H : context [Pos.compare ?a ?b] |- _ =>
             destruct (Pos.compare_spec a b)
         | |- context [Pos.compare ?a ?b] =>
             destruct (Pos.compare_spec a b)
         end;
  cbn in *; subst; try congruence; try lia.

Lemma SFleb_trans (x m y : float) :
  SFleb x m = true -> SFleb m y = true -> SFleb x y = true.
Proof.
  unfold SFleb.
  destruct x as [sx|sx| |sx mx ex], m as [sm|sm| |sm mm em],
    y as [sy|sy| |sy my ey];
    try destruct sx; try destruct sm; try destruct sy; cbn;
    try congruence; intros H1 H2; order_cases.
Qed.

Lemma SFleb_refl (x : float) : is_nan x = false -> SFleb x x = true.
Proof.
  unfold SFleb. destruct x as [[]|[]| |[] m e]; cbn; try congruence;
    intros _; rewrite Z.compare_refl; 
    change (Pos.compare_cont Eq m m) with (Pos.compare m m);
    rewrite Pos.compare_refl; reflexivity.
Qed.

Lemma SFltb_leb (x y : float) : SFltb x y = true -> SFleb x y = true.
Proof.
  unfold SFltb, SFleb. destruct (SFcompare x y) as [[]|]; congruence.
Qed.

Lemma SFcompare_antisym (x y : float) :
  SFcompare y x = option_map CompOpp (SFcompare x y).
Proof.
  destruct x as [[]|[]| |[] mx ex], y as [[]|[]| |[] my ey]; cbn;
    try reflexivity;
    rewrite (Z.compare_antisym ex ey); destruct (ex ?= ey); cbn;
    try reflexivity;
    change (Pos.compare_cont Eq) with Pos.compare;
    rewrite (Pos.compare_antisym mx my), ?CompOpp_involutive; reflexivity.
Qed.

Lemma SFltb_total (x y : float) :
  is_nan x = false -> is_nan y = false ->
  SFltb x y = false -> SFleb y x = true.
Proof.
  unfold SFltb, SFleb. rewrite (SFcompare_antisym x y).
  destruct x as [[]|[]| |[] mx ex], y as [[]|[]| |[] my ey]; cbn;
    try congruence; intros _ _;
    destruct (ex ?= ey); cbn; try congruence;
    destruct (Pos.compare_cont Eq mx my); cbn; congruence.
Qed.

(** ** C2: the highest polling candidate *)

Lemma guarded_max (l : list float) :
  match l with [] => Ok f0 | _ => py_max l end = Ok (col_max l).
Proof. destruct l; reflexivity. Qed.

Lemma scan_max_in (r : list float) (x : float) :
  In (fold_left (fun m y => if float_gt y m then y else m) r x) (x :: r).
Proof.
  revert x. induction r as [|y r IH]; intros x; cbn [fold_left].
  - left; reflexivity.
  - destruct (IH (if float_gt y x then y else x)) as [H|H].
    + destruct (float_gt y x); rewrite <- H; cbn; auto.
    + right; right; exact H.
Qed.

Lemma scan_max_upper (r : list float) (x : float) :
  is_nan x = false -> forallb (fun y => negb (is_nan y)) r = true ->
  Forall (fun y => float_le y
            (fold_left (fun m y => if float_gt y m then y else m) r x) = true)
    (x :: r).
Proof.
  revert x. induction r as [|y r IH]; intros x Hx Hr; cbn [fold_left].
  - constructor; [apply SFleb_refl, Hx | constructor].
  - cbn [forallb] in Hr. apply andb_true_iff in Hr. destruct Hr as [Hy Hr].
    apply negb_true_iff in Hy. change (float_gt y x) with (SFltb x y).
    destruct (SFltb x y) eqn:Hlt.
    + specialize (IH y Hy Hr). inversion IH as [|? ? Hy' Hr']; subst.
      constructor; [|exact IH].
      unfold float_le in *. eapply SFleb_trans; [|exact Hy'].
      apply SFltb_leb, Hlt.
    + specialize (IH x Hx Hr). inversion IH as [|? ? Hx' Hr']; subst.
      constructor; [exact Hx'|]. constructor; [|exact Hr'].
      unfold float_le in *. eapply SFleb_trans; [|exact Hx'].
      apply SFltb_total; assumption.
Qed.

Lemma float_gt_asym (x y : float) :
  float_gt x y = true -> float_gt y x = false.
Proof.
  unfold float_gt, SFltb. rewrite (SFcompare_antisym y x).
  destruct (SFcompare y x) as [[]|]; cbn; congruence.
Qed.

Lemma float_eq_not_gt (x y : float) :
  float_eq x y = true -> float_gt x y = false /\ float_gt y x = false.
Proof.
  unfold float_eq, float_gt, SFeqb, SFltb. rewrite (SFcompare_antisym x y).
  destruct (SFcompare x y) as [[]|]; cbn; intros H; split; congruence.
Qed.

(** C2. [highest_polling_candidate] always returns a label.  With the
    maximum of each candidate's whole column ([0.0] for an empty column):
    if the Harris maximum is strictly larger the label is [Harris] followed
    by that maximum times 100 to one decimal place and a percent sign;
    likewise [Trump] when the Trump maximum is strictly larger; when the two
    maxima are equal the label is [EVEN] with that value.  The maximum of
    any non-empty column is one of its results, and in a column without NaN
    no result exceeds it. *)
Theorem C2_highest_polling_candidate (self : PollReader) :
  let harris := Harris_result (data_dict self) in
  let trump := Trump_result (data_dict self) in
  let max_harris := col_max harris in
  let max_trump := col_max trump in
  (exists label, highest_polling_candidate self = Ok label)
  /\ (float_gt max_harris max_trump = true ->
      highest_polling_candidate self = Ok (percent_label "Harris" max_harris))
  /\ (float_gt max_trump max_harris = true ->
      highest_polling_candidate self = Ok (percent_label "Trump" max_trump))
  /\ (float_eq max_harris max_trump = true ->
      highest_polling_candidate self = Ok (percent_label "EVEN" max_harris))
  /\ (forall col,
      (col = [] -> col_max col = f0)
      /\ (col <> [] -> In (col_max col) col)
      /\ (forallb (fun y => negb (is_nan y)) col = true ->
          Forall (fun y => float_le y (col_max col) = true) col)).
Proof.
  intros harris trump max_harris max_trump.
  assert (E : highest_polling_candidate self
              = if float_gt max_harris max_trump
                then Ok (percent_label "Harris" max_harris)
                else if float_gt max_trump max_harris
                     then Ok (percent_label "Trump" max_trump)
                     else Ok (percent_label "EVEN" max_harris)).
  { unfold highest_polling_candidate. fold harris trump.
    rewrite !guarded_max. fold max_harris max_trump.
    destruct (float_gt max_harris max_trump); [reflexivity|].
    destruct (float_gt max_trump max_harris); reflexivity. }
  split; [|split; [|split; [|split]]].
  - rewrite E. destruct (float_gt max_harris max_trump); [eauto|].
    destruct (float_gt max_trump max_harris); eauto.
  - intros H. rewrite E, H. reflexivity.
  - intros H. rewrite E, H, (float_gt_asym _ _ H). reflexivity.
  - intros H. destruct (float_eq_not_gt _ _ H) as [H1 H2].
    rewrite E, H1, H2. reflexivity.
  - intros col. split; [|split].
    + intros ->. reflexivity.
    + destruct col as [|x r]; [congruence|]. intros _. apply scan_max_in.
    + destruct col as [|x r]; [constructor|]. intros Hn.
      cbn [forallb] in Hn. apply andb_true_iff in Hn.
      destruct Hn as [Hx Hr]. apply negb_true_iff in Hx.
      apply scan_max_upper; assumption.
Qed.

Lemma C2_highest_polling_candidate_witness :
  highest_polling_candidate
    (snd (build_data_dict
            (init ["header"; "Oct,1,1000 LV,55,45"; "Oct,2,1000 RV,50,50";
                   "Oct,3,900 XX,57.0,52"])))
  = Ok "Harris 57.0%".
Proof.
  destruct (C2_highest_polling_candidate
              (snd (build_data_dict
                      (init ["header"; "Oct,1,1000 LV,55,45";
                             "Oct,2,1000 RV,50,50"; "Oct,3,900 XX,57.0,52"]))))
    as (_ & H & _).
  rewrite H; vm_compute; reflexivity.
Defined.

(** ** C6: the sign of the sample size *)

Lemma digit_val_range (c : ascii) (v : Z) :
  PyStr.digit_val c = Some v -> 0 <= v <= 9.
Proof.
  unfold PyStr.digit_val.
  destruct (Z.leb_spec 48 (Z.of_N (N_of_ascii c)));
    destruct (Z.leb_spec (Z.of_N (N_of_ascii c)) 57); cbn;
    try discriminate.
  intros [= <-]. lia.
Qed.

Lemma scan_digitpart_nonneg (n : nat) :
  forall s, (String.length s <= n)%nat ->
            Forall (fun d => 0 <= d) (fst (PyStr.scan_digitpart s)).
Proof.
  induction n as [|n IH]; intros s Hs.
  - destruct s; [constructor | cbn in Hs; lia].
  - destruct s as [|c r]; [constructor|].
    cbn [String.length] in Hs. cbn [PyStr.scan_digitpart].
    destruct (PyStr.digit_val c) as [v|] eqn:Hv; [|constructor].
    apply digit_val_range in Hv.
    assert (Hr : Forall (fun d => 0 <= d) (fst (PyStr.scan_digitpart r)))
      by (apply IH; lia).
    match goal with
    | |- context [let '(ds, rest) := ?scan in _] =>
        assert (Hscan : Forall (fun d => 0 <= d) (fst scan))
    end.
    { destruct r as [|u r1]; [exact Hr|].
      destruct (Ascii.eqb_spec u "_"%char) as [->|Hu].
      - destruct r1 as [|d r2]; [exact Hr|].
        destruct (PyStr.is_digit d); [|constructor].
        apply IH. cbn [String.length] in *. lia.
      - destruct u as [[] [] [] [] [] [] [] []]; try exact Hr.
        contradiction Hu; reflexivity. }
    match goal with
    | |- context [let '(ds, rest) := ?scan in _] =>
        destruct scan as [ds rest]
    end.
    cbn [fst] in *. constructor; [lia | exact Hscan].
Qed.

Lemma digits_value_nonneg (ds : list Z) :
  Forall (fun d => 0 <= d) ds -> 0 <= PyStr.digits_value ds.
Proof.
  unfold PyStr.digits_value.
  assert (G : forall acc, 0 <= acc -> Forall (fun d => 0 <= d) ds ->
                          0 <= fold_left (fun a d => 10 * a + d) ds acc).
  { induction ds as [|d ds IH]; intros acc Ha Hd; cbn [fold_left].
    - exact Ha.
    - inversion Hd; subst. apply IH; [lia | assumption]. }
  apply G. lia.
Qed.

(** A token that begins with a character that is neither whitespace nor a
    minus sign is read by [int] as a non-negative number. *)
Lemma py_int_unsigned (c : ascii) (r : string) (n : Z) :
  PyStr.isspace c = false -> c <> "-"%char ->
  py_int (String c r) = Ok n -> 0 <= n.
Proof.
  intros Hc Hm. unfold py_int, PyStr.strip.
  assert (E : exists r', PyStr.rstrip (String c r) = String c r').
  { cbn [PyStr.rstrip]. rewrite Hc.
    destruct (PyStr.rstrip r); eauto. }
  destruct E as [r' ->]. cbn [PyStr.lstrip]. rewrite Hc.
  assert (Es : PyStr.scan_sign (String c r')
               = (false, match c with
                         | "+"%char => r'
                         | _ => String c r'
                         end)).
  { destruct c as [[] [] [] [] [] [] [] []]; try reflexivity.
    contradiction Hm; reflexivity. }
  rewrite Es.
  match goal with
  | |- context [PyStr.scan_digitpart ?b] =>
      pose proof (scan_digitpart_nonneg (String.length b) b (le_n _)) as Hds;
      destruct (PyStr.scan_digitpart b) as [ds rest]
  end.
  cbn [fst] in Hds.
  destruct ds as [|d ds]; [discriminate|].
  destruct rest; [|discriminate].
  intros [= <-]. apply digits_value_nonneg, Hds.
Qed.

(** The first token of [s.split()], when there is one, begins with a
    character that is not whitespace. *)
Lemma split_first_token (s : string) (tok : string) :
  hd_error (PyStr.split s) = Some tok ->
  exists c r, tok = String c r /\ PyStr.isspace c = false.
Proof.
  induction s as [|c s IH]; cbn [PyStr.split]; [discriminate|].
  destruct (PyStr.isspace c) eqn:Hc; [exact IH|].
  destruct s as [|c' s']; [intros [= <-]; eauto|].
  destruct (PyStr.isspace c'); [intros [= <-]; eauto|].
  destruct (PyStr.split (String c' s')); intros [= <-]; eauto.
Qed.

Lemma sample_column_token (f : string) (n : Z) (st : string) :
  sample_column f = Ok (n, st) ->
  exists tok, hd_error (PyStr.split f) = Some tok /\ py_int tok = Ok n.
Proof.
  unfold sample_column, getitem.
  destruct (PyStr.split f) as [|tok rest]; cbn [nth_error hd_error].
  - destruct (len [] =? 2); discriminate.
  - intros H. exists tok. split; [reflexivity|].
    destruct (len (tok :: rest) =? 2);
      destruct (py_int tok) as [v|e]; try discriminate.
    + destruct rest; cbn in H; [discriminate|]. congruence.
    + congruence.
Qed.

Lemma reads_sample_of_row (row : string) (r : poll_record) :
  reads row r -> sample_of_row row (r_sample r).
Proof.
  intros (_ & _ & (st & Hs & _) & _).
  apply sample_column_token in Hs. destruct Hs as (tok & Htok & Hint).
  exists tok. split; [exact Htok|]. split; [exact Hint|].
  intros Hm.
  destruct (split_first_token _ _ Htok) as (c & r' & -> & Hc).
  apply (py_int_unsigned c r' _ Hc); [|exact Hint].
  intros ->. discriminate Hm.
Qed.

Lemma Forall2_map_r {A B C : Type} (R : A -> C -> Prop) (P : A -> B -> Prop)
    (f : B -> C) (la : list A) (lb : list B) :
  (forall a b, P a b -> R a (f b)) ->
  Forall2 P la lb -> Forall2 R la (map f lb).
Proof.
  intros HPR H. induction H; cbn; constructor; auto.
Qed.

(** C6, negated as stated: the row [Oct,1,-5 LV,55,45] is accepted and
    its sample size is stored as [-5]. *)
Lemma C6_negative_sample_stored :
  build_outcome ["h"; "Oct,1,-5 LV,55,45"]
  = (Ok tt,
     {| month := ["Oct"]; date := [1]; sample := [-5];
        sample_type := ["likely voters"];
        Harris_result := [S754_finite false 4953959590107546 (-53)];
        Trump_result := [S754_finite false 8106479329266893 (-54)] |})
  /\ ~ Forall (fun n => 0 <= n)
         (sample (snd (build_outcome ["h"; "Oct,1,-5 LV,55,45"]))).
Proof.
  split; [vm_compute; reflexivity|].
  intros H. inversion H as [|n l Hn _]; subst. apply Hn. reflexivity.
Qed.

(** C6, amended. After a successful build every stored sample size is
    the integer that [int] reads from the first token of the sample
    descriptor of its row (the complete rows after the header, in order); it
    is non-negative whenever that token does not begin with a minus sign. *)
Theorem C6_sample_size_sign (lines : list string) (self : PollReader) :
  build_data_dict (init lines) = (Ok tt, self) ->
  Forall2 sample_of_row (filter complete (tl lines)) (sample (data_dict self)).
Proof.
  intros H. apply built_columns in H.
  destruct H as (recs & Hrecs & _ & _ & -> & _).
  apply (Forall2_map_r _ reads); [|exact Hrecs].
  apply reads_sample_of_row.
Qed.

Lemma C6_sample_size_sign_witness :
  Forall2 sample_of_row
    (filter complete (tl ["h"; "Oct,1,1000 LV,55,45"; "x"; "Oct,2,-5,5,5"]))
    (sample
       (data_dict
          (snd (build_data_dict
                  (init ["h"; "Oct,1,1000 LV,55,45"; "x"; "Oct,2,-5,5,5"]))))).
Proof.
  apply (C6_sample_size_sign
           ["h"; "Oct,1,1000 LV,55,45"; "x"; "Oct,2,-5,5,5"]).
  vm_compute. reflexivity.
Defined.

(** ** Rounding to binary64 *)

Lemma fexp_binary64 (e : Z) : fexp prec emax e = Z.max (e - 53) (-1074).
Proof. reflexivity. Qed.

Lemma digits2_size (p : positive) : digits2_pos p = Pos.size p.
Proof. induction p; cbn; congruence. Qed.

Lemma Zdigits2_log2 (p : positive) :
  Zdigits2 (Zpos p) = Z.log2 (Zpos p) + 1.
Proof.
  cbn [Zdigits2]. rewrite digits2_size.
  destruct p; cbn [Z.log2 Pos.size]; lia.
Qed.

Lemma shr_1_div2 (mrs : shr_record) :
  0 <= shr_m mrs -> shr_m (shr_1 mrs) = shr_m mrs / 2.
Proof.
  destruct mrs as [m r s]. cbn [shr_m]. intros Hm.
  destruct m as [|p|p]; [reflexivity| |lia].
  destruct p; cbn [shr_1 shr_m].
  - rewrite Pos2Z.inj_xI. apply (Z.div_unique _ _ _ 1); lia.
  - rewrite Pos2Z.inj_xO. apply (Z.div_unique _ _ _ 0); lia.
  - reflexivity.
Qed.

Lemma iter_shr_1_div (p : positive) :
  forall mrs, 0 <= shr_m mrs ->
              shr_m (iter_pos shr_1 p mrs) = shr_m mrs / 2 ^ Zpos p.
Proof.
  induction p as [p IH|p IH|]; intros mrs Hm; cbn [iter_pos].
  - assert (H1 : 0 <= shr_m (shr_1 mrs))
      by (rewrite shr_1_div2 by assumption; apply Z.div_pos; lia).
    assert (H2 : 0 <= shr_m (iter_pos shr_1 p (shr_1 mrs)))
      by (rewrite IH by assumption; apply Z.div_pos; lia).
    rewrite IH, IH, shr_1_div2 by assumption.
    rewrite !Z.div_div by lia. f_equal.
    change (Z.pos p~1) with (2 * Z.pos p + 1).
    replace (2 * Z.pos p + 1) with (1 + Z.pos p + Z.pos p) by lia.
    rewrite !Z.pow_add_r, Z.pow_1_r by lia. ring.
  - assert (H2 : 0 <= shr_m (iter_pos shr_1 p mrs))
      by (rewrite IH by assumption; apply Z.div_pos; lia).
    rewrite IH, IH by assumption.
    rewrite !Z.div_div by lia. f_equal.
    change (Z.pos p~0) with (2 * Z.pos p).
    replace (2 * Z.pos p) with (Z.pos p + Z.pos p) by lia.
    rewrite Z.pow_add_r by lia. ring.
  - apply shr_1_div2, Hm.
Qed.

(** What [shr] does to the mantissa and to the exponent. *)
Lemma shr_spec (mrs : shr_record) (e n : Z) :
  0 <= shr_m mrs ->
  shr_m (fst (shr mrs e n)) = shr_m mrs / 2 ^ Z.max n 0
  /\ snd (shr mrs e n) = e + Z.max n 0.
Proof.
  intros Hm. destruct n as [|p|p]; cbn [shr fst snd].
  - cbn. rewrite Z.div_1_r. lia.
  - rewrite iter_shr_1_div by assumption.
    replace (Z.max (Zpos p) 0) with (Zpos p) by lia. split; reflexivity.
  - replace (Z.max (Zneg p) 0) with 0 by lia. cbn. rewrite Z.div_1_r. lia.
Qed.

Lemma shr_m_of_loc (m : Z) (l : location) : shr_m (shr_record_of_loc m l) = m.
Proof. destruct l as [|[]]; reflexivity. Qed.

Lemma round_nearest_even_bounds (m : Z) (l : location) :
  m <= round_nearest_even m l <= m + 1.
Proof.
  destruct l as [|[]]; cbn; try lia. destruct (Z.even m); lia.
Qed.

Lemma Zdigits2_nonneg (z : Z) : 0 <= Zdigits2 z.
Proof. destruct z; cbn; lia. Qed.

Lemma Zdigits2_pos_spec (z : Z) :
  0 < z -> 0 < Zdigits2 z /\ 2 ^ (Zdigits2 z - 1) <= z < 2 ^ Zdigits2 z.
Proof.
  intros Hz. destruct z as [|p|p]; try lia.
  rewrite Zdigits2_log2.
  pose proof (Z.log2_nonneg (Zpos p)).
  pose proof (Z.log2_spec (Zpos p) Hz) as Hs.
  replace (Z.log2 (Zpos p) + 1 - 1) with (Z.log2 (Zpos p)) by lia.
  replace (Z.log2 (Zpos p) + 1) with (Z.succ (Z.log2 (Zpos p))) by lia.
  split; [lia | exact Hs].
Qed.

Lemma Zdigits2_unique (z d : Z) :
  0 < d -> 2 ^ (d - 1) <= z < 2 ^ d -> Zdigits2 z = d.
Proof.
  intros Hd Hz.
  assert (0 < z) by (pose proof (Z.pow_pos_nonneg 2 (d - 1)); lia).
  destruct z as [|p|p]; try lia.
  rewrite Zdigits2_log2.
  rewrite (Z.log2_unique (Zpos p) (d - 1)); [lia | lia |].
  replace (Z.succ (d - 1)) with d by lia. exact Hz.
Qed.

(** The digits of a shifted mantissa. *)
Lemma Zdigits2_shift (z n : Z) :
  0 < z -> 0 <= n ->
  (z / 2 ^ n = 0 /\ Zdigits2 z <= n)
  \/ (0 < z / 2 ^ n /\ Zdigits2 (z / 2 ^ n) = Zdigits2 z - n).
Proof.
  intros Hz Hn.
  destruct (Zdigits2_pos_spec z Hz) as (Hd & Hlo & Hhi).
  assert (Hp : 0 < 2 ^ n) by (apply Z.pow_pos_nonneg; lia).
  destruct (Z.le_gt_cases (Zdigits2 z) n) as [Hle|Hgt].
  - left. split; [|exact Hle].
    apply Z.div_small. split; [lia|].
    apply Z.lt_le_trans with (2 ^ Zdigits2 z); [exact Hhi|].
    apply Z.pow_le_mono_r; lia.
  - right.
    assert (Hq : 2 ^ (Zdigits2 z - n - 1) <= z / 2 ^ n < 2 ^ (Zdigits2 z - n)).
    { split.
      - apply Z.div_le_lower_bound; [exact Hp|].
        rewrite <- Z.pow_add_r by lia.
        replace (n + (Zdigits2 z - n - 1)) with (Zdigits2 z - 1) by lia.
        exact Hlo.
      - apply Z.div_lt_upper_bound; [exact Hp|].
        rewrite <- Z.pow_add_r by lia.
        replace (n + (Zdigits2 z - n)) with (Zdigits2 z) by lia.
        exact Hhi. }
    split.
    + pose proof (Z.pow_pos_nonneg 2 (Zdigits2 z - n - 1)). lia.
    + apply Zdigits2_unique; [lia | exact Hq].
Qed.

(** The digits of a mantissa that rounding moved up by one. *)
Lemma Zdigits2_succ (z : Z) :
  0 < z ->
  Zdigits2 (z + 1) = Zdigits2 z
  \/ (Zdigits2 (z + 1) = Zdigits2 z + 1 /\ z + 1 = 2 ^ Zdigits2 z).
Proof.
  intros Hz.
  destruct (Zdigits2_pos_spec z Hz) as (Hd & Hlo & Hhi).
  destruct (Z.eq_dec (z + 1) (2 ^ Zdigits2 z)) as [He|Hne].
  - right. split; [|exact He].
    apply Zdigits2_unique; [lia|].
    replace (Zdigits2 z + 1 - 1) with (Zdigits2 z) by lia.
    rewrite Z.pow_add_r, Z.pow_1_r by lia. lia.
  - left. apply Zdigits2_unique; [lia | lia].
Qed.

Lemma Zdigits2_pow2 (k : Z) : 0 <= k -> Zdigits2 (2 ^ k) = k + 1.
Proof.
  intros Hk. apply Zdigits2_unique; [lia|].
  replace (k + 1 - 1) with k by lia.
  rewrite Z.pow_add_r, Z.pow_1_r by lia.
  pose proof (Z.pow_pos_nonneg 2 k). lia.
Qed.

Lemma round_result_finite (sx : bool) (m e mag : Z) :
  0 < m -> fexp prec emax (Zdigits2 m + e) = e ->
  (Zdigits2 m + e <= Z.max mag (-1073)
   \/ (Zdigits2 m + e = mag + 1 /\ m = 2 ^ (Zdigits2 m - 1))) ->
  rounded_from sx mag (round_result sx m e).
Proof.
  intros Hm Hc Hb. destruct m as [|p|p]; try lia.
  unfold round_result. destruct (Z.leb_spec e (emax - prec)); cbn.
  2:{ split; [reflexivity|]. rewrite fexp_binary64 in Hc.
      unfold emax, prec in *. lia. }
  split; [reflexivity|]. split; [|exact Hb].
  unfold bounded, canonical_mantissa.
  apply andb_true_iff. split; [apply Z.eqb_eq; exact Hc | apply Z.leb_le; lia].
Qed.

(** The second half of [binary_round_aux]: the rounded mantissa [m1] comes
    from a mantissa [m'] that is zero at the least exponent or is
    canonical at [e']. *)
Lemma round_tail (sx : bool) (m' m1 e' mag : Z) :
  0 <= m' -> m' <= m1 <= m' + 1 ->
  (m' = 0 -> e' = -1074) ->
  (0 < m' -> fexp prec emax (Zdigits2 m' + e') = e' /\ mag = Zdigits2 m' + e') ->
  rounded_from sx mag
    (let '(mrs, e) := shr_fexp prec emax m1 e' loc_Exact in
     round_result sx (shr_m mrs) e).
Proof.
  intros Hm' Hm1 Hz Hc.
  destruct (Z.eq_dec m' 0) as [E0|N0].
  - subst m'. rewrite (Hz eq_refl).
    assert (Hcase : m1 = 0 \/ m1 = 1) by lia.
    destruct Hcase as [-> | ->]; cbn.
    + reflexivity.
    + split; [reflexivity|]. split; [reflexivity|]. left. lia.
  - assert (Hp : 0 < m') by lia.
    destruct (Hc Hp) as [Hcan ->]. clear Hc Hz.
    rewrite fexp_binary64 in Hcan.
    destruct (Zdigits2_pos_spec m' Hp) as (Hd & Hlo & Hhi).
    unfold shr_fexp.
    destruct (shr (shr_record_of_loc m1 loc_Exact) e'
                (fexp prec emax (Zdigits2 m1 + e') - e')) as [mrs e] eqn:E.
    pose proof (shr_spec (shr_record_of_loc m1 loc_Exact) e'
                  (fexp prec emax (Zdigits2 m1 + e') - e')) as Hs.
    rewrite E in Hs. cbn [fst snd shr_m shr_record_of_loc] in Hs.
    destruct Hs as [Hs1 Hs2]; [lia|]. rewrite Hs1, Hs2.
    rewrite fexp_binary64.
    assert (Hdig : Zdigits2 m1 = Zdigits2 m'
                   \/ (Zdigits2 m1 = Zdigits2 m' + 1
                       /\ m1 = 2 ^ Zdigits2 m')).
    { destruct (Z.eq_dec m1 m') as [->|]; [left; reflexivity|].
      replace m1 with (m' + 1) by lia. apply Zdigits2_succ, Hp. }
    destruct Hdig as [Hd1 | [Hd1 Hpow]].
    + rewrite Hd1.
      replace (Z.max (Zdigits2 m' + e' - 53) (-1074) - e') with 0 by lia.
      cbn [Z.max]. rewrite Z.pow_0_r, Z.div_1_r, Z.add_0_r.
      apply round_result_finite; [lia | |].
      * rewrite Hd1, fexp_binary64. exact Hcan.
      * left. lia.
    + rewrite Hd1.
      destruct (Z.eq_dec (Zdigits2 m') 53) as [E53|N53].
      * replace (Z.max (Zdigits2 m' + 1 + e' - 53) (-1074) - e') with 1 by lia.
        cbn [Z.max]. rewrite Z.pow_1_r.
        assert (Hhalf : m1 / 2 = 2 ^ 52).
        { rewrite Hpow, E53. reflexivity. }
        rewrite Hhalf.
        apply round_result_finite.
        -- reflexivity.
        -- rewrite fexp_binary64, (Zdigits2_pow2 52) by lia. lia.
        -- right. rewrite (Zdigits2_pow2 52) by lia. split; [lia | reflexivity].
      * replace (Z.max (Zdigits2 m' + 1 + e' - 53) (-1074) - e') with 0 by lia.
        cbn [Z.max]. rewrite Z.pow_0_r, Z.div_1_r, Z.add_0_r.
        apply round_result_finite; [lia | |].
        -- rewrite Hd1, fexp_binary64. lia.
        -- right. rewrite Hd1. split; [lia|].
           replace (Zdigits2 m' + 1 - 1) with (Zdigits2 m') by lia. exact Hpow.
Qed.

Lemma binary_round_aux_unfold (sx : bool) (mx ex : Z) (lx : location) :
  binary_round_aux prec emax sx mx ex lx
  = let '(mrs', e') := shr_fexp prec emax mx ex lx in
    let '(mrs, e) :=
      shr_fexp prec emax
        (round_nearest_even (shr_m mrs') (loc_of_shr_record mrs')) e'
        loc_Exact in
    round_result sx (shr_m mrs) e.
Proof. reflexivity. Qed.

(** Rounding a mantissa that has at least the digits its exponent asks
    for, or a zero mantissa at the least exponent. *)
Lemma round_aux_spec (sx : bool) (mx ex : Z) (lx : location) :
  0 <= mx -> (mx = 0 -> ex = -1074) ->
  (0 < mx -> ex <= fexp prec emax (Zdigits2 mx + ex)) ->
  rounded_from sx (Zdigits2 mx + ex) (binary_round_aux prec emax sx mx ex lx).
Proof.
  intros Hm0 Hz He. rewrite binary_round_aux_unfold.
  destruct (Z.eq_dec mx 0) as [E0|N0].
  { subst mx. rewrite (Hz eq_refl).
    destruct lx as [|[]]; cbn; repeat split; auto; left; lia. }
  assert (Hm : 0 < mx) by lia. specialize (He Hm). clear Hz Hm0 N0.
  unfold shr_fexp at 1.
  destruct (shr (shr_record_of_loc mx lx) ex
              (fexp prec emax (Zdigits2 mx + ex) - ex)) as [mrs' e'] eqn:E.
  pose proof (shr_spec (shr_record_of_loc mx lx) ex
                (fexp prec emax (Zdigits2 mx + ex) - ex)) as Hs.
  rewrite E, shr_m_of_loc in Hs. cbn [fst snd] in Hs.
  destruct Hs as [Hs1 Hs2]; [lia|].
  replace (Z.max (fexp prec emax (Zdigits2 mx + ex) - ex) 0)
    with (fexp prec emax (Zdigits2 mx + ex) - ex) in Hs1, Hs2 by lia.
  rewrite fexp_binary64 in *.
  pose proof (round_nearest_even_bounds (shr_m mrs') (loc_of_shr_record mrs')).
  destruct (Zdigits2_shift mx (Z.max (Zdigits2 mx + ex - 53) (-1074) - ex) Hm)
    as [[H0 Hd] | [Hp Hd]]; [lia| |].
  - apply round_tail with (m' := shr_m mrs'); try lia.
  - apply round_tail with (m' := shr_m mrs'); try lia.
    intros _. rewrite fexp_binary64, Hs1, Hd. lia.
Qed.

Lemma rounded_valid (sx : bool) (mag : Z) (x : float) :
  rounded_from sx mag x -> valid_binary prec emax x = true.
Proof. destruct x; cbn; tauto. Qed.

Lemma iter_xO_pow2 (m d : positive) :
  Zpos (Pos.iter xO m d) = Zpos m * 2 ^ Zpos d.
Proof.
  induction d as [|d IH] using Pos.peano_ind.
  - cbn. lia.
  - rewrite Pos.iter_succ, Pos2Z.inj_xO, IH, Pos2Z.inj_succ, Z.pow_succ_r by lia.
    ring.
Qed.

Lemma Zdigits2_mul_pow2 (z k : Z) :
  0 < z -> 0 <= k -> Zdigits2 (z * 2 ^ k) = Zdigits2 z + k.
Proof.
  intros Hz Hk.
  destruct (Zdigits2_pos_spec z Hz) as (Hd & Hlo & Hhi).
  assert (Hp : 0 < 2 ^ k) by (apply Z.pow_pos_nonneg; lia).
  apply Zdigits2_unique; [lia|].
  replace (Zdigits2 z + k - 1) with (Zdigits2 z - 1 + k) by lia.
  rewrite !Z.pow_add_r by lia. split.
  - apply Z.mul_le_mono_nonneg_r; lia.
  - apply Z.mul_lt_mono_pos_r; lia.
Qed.

(** [binary_round] returns a valid float. *)
Lemma binary_round_spec (sx : bool) (mx : positive) (ex : Z) :
  rounded_from sx (Zdigits2 (Zpos mx) + ex) (binary_round prec emax sx mx ex).
Proof.
  unfold binary_round, shl_align.
  change (Zpos (digits2_pos mx)) with (Zdigits2 (Zpos mx)).
  destruct (fexp prec emax (Zdigits2 (Zpos mx) + ex) - ex) as [|d|d] eqn:E.
  - apply round_aux_spec; lia.
  - apply round_aux_spec; lia.
  - assert (Hd : Zdigits2 (Zpos (Pos.iter xO mx d))
                 + fexp prec emax (Zdigits2 (Zpos mx) + ex)
                 = Zdigits2 (Zpos mx) + ex).
    { rewrite iter_xO_pow2, Zdigits2_mul_pow2 by lia. lia. }
    pose proof (round_aux_spec sx (Zpos (Pos.iter xO mx d))
                  (fexp prec emax (Zdigits2 (Zpos mx) + ex)) loc_Exact) as H.
    rewrite Hd in H. apply H; lia.
Qed.

(** The quotient that the division core hands over to rounding. *)
Lemma div_core_spec (m d : positive) :
  let '(q, e, l) := SFdiv_core_binary prec emax (Zpos m) 0 (Zpos d) 0 in
  0 <= q /\ (q = 0 -> e = -1074)
  /\ (0 < q -> e <= fexp prec emax (Zdigits2 q + e)).
Proof.
  unfold SFdiv_core_binary.
  destruct (Zdigits2_pos_spec (Zpos m) eq_refl) as (Hd1 & Hlo1 & Hhi1).
  destruct (Zdigits2_pos_spec (Zpos d) eq_refl) as (Hd2 & Hlo2 & Hhi2).
  set (d1 := Zdigits2 (Zpos m)) in *. set (d2 := Zdigits2 (Zpos d)) in *.
  rewrite !Z.add_0_r, !Z.sub_0_r, fexp_binary64.
  set (e := Z.min (Z.max (d1 - d2 - 53) (-1074)) 0).
  assert (He : -1074 <= e <= 0) by (subst e; lia).
  set (m' := match 0 - e with
             | 0 => Zpos m
             | Zpos _ => Z.shiftl (Zpos m) (0 - e)
             | Zneg _ => 0
             end).
  assert (Hm' : m' = Zpos m * 2 ^ (- e)).
  { subst m'. destruct (0 - e) as [|p|p] eqn:E; try lia.
    - replace (- e) with 0 by lia. cbn. lia.
    - rewrite Z.shiftl_mul_pow2 by lia. f_equal. f_equal. lia. }
  clearbody m'.
  pose proof (Z.div_eucl_eq m' (Zpos d) ltac:(lia)) as Heq.
  pose proof (Z.mod_pos_bound m' (Zpos d) ltac:(lia)) as Hr.
  unfold Z.modulo in Hr.
  destruct (Z.div_eucl m' (Zpos d)) as [q r].
  assert (Hs : 0 < 2 ^ (- e)) by (apply Z.pow_pos_nonneg; lia).
  assert (Hq0 : 0 <= q) by nia.
  assert (Hlow : 2 ^ (d1 - 1 - e) <= m').
  { rewrite Hm'. replace (d1 - 1 - e) with (d1 - 1 + - e) by lia.
    rewrite Z.pow_add_r by lia. apply Z.mul_le_mono_nonneg_r; lia. }
  split; [exact Hq0|]. split.
  - intros ->.
    assert (Hlt : 2 ^ (d1 - 1 - e) < 2 ^ d2) by lia.
    apply Z.pow_lt_mono_r_iff in Hlt; lia.
  - intros Hq. rewrite fexp_binary64.
    destruct (Z.eq_dec e (-1074)) as [->|Hne]; [lia|].
    assert (Hk : 2 ^ (d1 - d2 - e - 1) <= q).
    { apply Z.lt_succ_r.
      apply (Z.mul_lt_mono_pos_l (2 ^ d2)); [apply Z.pow_pos_nonneg; lia|].
      rewrite <- Z.pow_add_r by lia.
      replace (d2 + (d1 - d2 - e - 1)) with (d1 - 1 - e) by lia.
      assert (Zpos d * Z.succ q <= 2 ^ d2 * Z.succ q)
        by (apply Z.mul_le_mono_nonneg_r; lia).
      lia. }
    assert (Hdq : d1 - d2 - e <= Zdigits2 q).
    { destruct (Zdigits2_pos_spec q Hq) as (_ & _ & Hhi).
      assert (Hlt : 2 ^ (d1 - d2 - e - 1) < 2 ^ Zdigits2 q) by lia.
      apply Z.pow_lt_mono_r_iff in Hlt; [lia | lia | apply Zdigits2_nonneg]. }
    lia.
Qed.

Lemma float_of_decimal_valid (neg : bool) (m : positive) (e : Z) :
  valid_binary prec emax (float_of_decimal neg m e) = true.
Proof.
  unfold float_of_decimal. destruct e as [|k|k].
  - eapply rounded_valid, binary_round_spec.
  - eapply rounded_valid, binary_round_spec.
  - pose proof (div_core_spec m (10 ^ k)) as H.
    destruct (SFdiv_core_binary prec emax (Zpos m) 0 (Zpos (10 ^ k)) 0)
      as [[q e'] l].
    destruct H as (H0 & Hz & Hp).
    eapply rounded_valid, round_aux_spec; assumption.
Qed.

(** Every float that [float(s)] returns is a valid binary64. *)
Lemma py_float_valid (s : string) (v : float) :
  py_float s = Ok v -> valid_binary prec emax v = true.
Proof.
  unfold py_float.
  destruct (PyStr.scan_sign (PyStr.strip s)) as [neg body].
  destruct (_ || _); [intros [= <-]; reflexivity|].
  destruct (String.eqb _ _); [intros [= <-]; reflexivity|].
  destruct (PyStr.scan_digitpart body) as [ip r1].
  match goal with
  | |- context [let '(fp, r2) := ?t in _] => destruct t as [fp r2]
  end.
  assert (G : match scan_exponent r2 with
              | Ok (ex, EmptyString) =>
                  match PyStr.digits_value (ip ++ fp) with
                  | Zpos m =>
                      Ok (float_of_decimal neg m
                            (ex - Z.of_nat (List.length fp)))
                  | _ => Ok (S754_zero neg)
                  end
              | _ => Raise ValueError
              end = Ok v -> valid_binary prec emax v = true).
  { destruct (scan_exponent r2) as [[ex rest]|]; [|discriminate].
    destruct rest; [|discriminate].
    destruct (PyStr.digits_value (ip ++ fp));
      intros [= <-]; try reflexivity.
    apply float_of_decimal_valid. }
  destruct ip, fp; try discriminate; exact G.
Qed.

(** ** C5: the range of the stored fractions *)

Lemma f1_value : f1 = S754_finite false 4503599627370496 (-52).
Proof. reflexivity. Qed.

Lemma f100_value : f100 = S754_finite false 7036874417766400 (-46).
Proof. reflexivity. Qed.

(** A float rounded from a positive quantity of magnitude at most [0] is
    between [0.0] and [1.0]. *)
Lemma rounded_unit (mag : Z) (x : float) :
  mag <= 0 -> rounded_from false mag x ->
  float_le f0 x = true /\ float_le x f1 = true.
Proof.
  intros Hmag H. destruct x as [s|s| |s m e]; unfold rounded_from in H.
  - subst s. split; reflexivity.
  - unfold emax in H. lia.
  - contradiction.
  - destruct H as (-> & Hb & Hm).
    split; [reflexivity|].
    change (Zpos (digits2_pos m)) with (Zdigits2 (Zpos m)) in Hm.
    unfold bounded, canonical_mantissa in Hb.
    apply andb_true_iff in Hb. destruct Hb as [Hc _].
    apply Z.eqb_eq in Hc.
    change (Zpos (digits2_pos m)) with (Zdigits2 (Zpos m)) in Hc.
    rewrite fexp_binary64 in Hc.
    rewrite f1_value. unfold float_le, SFleb. cbn [SFcompare].
    destruct Hm as [Hm | [Hm Hpow]].
    + assert (He : e < -52) by lia.
      apply Z.compare_lt_iff in He. rewrite He. reflexivity.
    + destruct (Z.eq_dec mag 0) as [->|Hn].
      * assert (He : e = -52) by lia. subst e.
        assert (Hd : Zdigits2 (Zpos m) = 53) by lia.
        rewrite Hd in Hpow. injection Hpow as ->. reflexivity.
      * assert (He : e < -52) by lia.
        apply Z.compare_lt_iff in He. rewrite He. reflexivity.
Qed.

Lemma SFltb_finite_pos (m1 m2 : positive) (e1 e2 : Z) :
  SFltb (S754_finite false m1 e1) (S754_finite false m2 e2) = true ->
  e1 < e2 \/ (e1 = e2 /\ Zpos m1 < Zpos m2).
Proof.
  unfold SFltb. cbn [SFcompare].
  change (Pos.compare_cont Eq m1 m2) with (Pos.compare m1 m2).
  destruct (Z.compare_spec e1 e2); try discriminate; [|left; assumption].
  destruct (Pos.compare_spec m1 m2); try discriminate.
  intros _. right. split; [assumption|]. apply Pos2Z.pos_lt_pos. assumption.
Qed.

Lemma SFleb_finite_pos (m1 m2 : positive) (e1 e2 : Z) :
  SFleb (S754_finite false m1 e1) (S754_finite false m2 e2) = true ->
  e1 < e2 \/ (e1 = e2 /\ Zpos m1 <= Zpos m2).
Proof.
  unfold SFleb. cbn [SFcompare].
  change (Pos.compare_cont Eq m1 m2) with (Pos.compare m1 m2).
  destruct (Z.compare_spec e1 e2); try discriminate; [|left; assumption].
  destruct (Pos.compare_spec m1 m2); try discriminate; intros _; right;
    (split; [assumption|]).
  - subst. apply Z.le_refl.
  - apply Z.lt_le_incl, Pos2Z.pos_lt_pos. assumption.
Qed.

(** A valid binary64 above [1.0] and at most [100.0], divided by
    [100.0], is between [0.0] and [1.0]. *)
Lemma percent_to_unit (v : float) :
  valid_binary prec emax v = true ->
  float_gt v f1 = true -> float_le v f100 = true ->
  float_le f0 (float_div v f100) = true
  /\ float_le (float_div v f100) f1 = true.
Proof.
  rewrite f1_value, f100_value.
  destruct v as [s|s| |s mx ex]; try (destruct s; discriminate);
    [discriminate|].
  destruct s; [discriminate|].
  unfold float_gt, float_le. cbn [valid_binary].
  intros Hv Hgt Hle.
  apply SFltb_finite_pos in Hgt. apply SFleb_finite_pos in Hle.
  unfold bounded, canonical_mantissa in Hv.
  apply andb_true_iff in Hv. destruct Hv as [Hc _]. apply Z.eqb_eq in Hc.
  change (Zpos (digits2_pos mx)) with (Zdigits2 (Zpos mx)) in Hc.
  rewrite fexp_binary64 in Hc.
  assert (Hlo : -52 < ex \/ (ex = -52 /\ 4503599627370496 < Zpos mx))
    by lia.
  assert (Hhi : ex < -46 \/ (ex = -46 /\ Zpos mx <= 7036874417766400))
    by lia.
  clear Hgt Hle.
  assert (Hd : Zdigits2 (Zpos mx) = 53) by lia.
  destruct (Zdigits2_pos_spec (Zpos mx) eq_refl) as (_ & Hm1 & Hm2).
  rewrite Hd in Hm1, Hm2. cbn in Hm1, Hm2.
  destruct (Z.eq_dec (Zpos mx) 7036874417766400) as [E|Hne].
  { injection E as ->. destruct Hhi as [Hhi|[-> _]].
    - assert (Hex : ex = -52 \/ ex = -51 \/ ex = -50 \/ ex = -49
                    \/ ex = -48 \/ ex = -47) by lia.
      destruct Hex as [->|[->|[->|[->|[->| ->]]]]]; split; reflexivity.
    - split; reflexivity. }
  fold (float_le f0 (float_div (S754_finite false mx ex)
                       (S754_finite false 7036874417766400 (-46)))).
  fold (float_le (float_div (S754_finite false mx ex)
                    (S754_finite false 7036874417766400 (-46)))
          (S754_finite false 4503599627370496 (-52))).
  rewrite <- f1_value.
  unfold float_div, SFdiv, SFdiv_core_binary. cbn [xorb].
  rewrite Hd. change (Zdigits2 7036874417766400) with 53.
  rewrite fexp_binary64.
  replace (Z.min (Z.max (53 + ex - (53 + -46) - 53) (-1074)) (ex - -46))
    with (ex - 7) by lia.
  replace (ex - -46 - (ex - 7)) with 53 by lia.
  cbv iota. rewrite Z.shiftl_mul_pow2 by lia.
  change (2 ^ 53) with 9007199254740992.
  pose proof (Z.div_eucl_eq (Zpos mx * 9007199254740992) 7036874417766400
                ltac:(lia)) as Heq.
  pose proof (Z.mod_pos_bound (Zpos mx * 9007199254740992) 7036874417766400
                ltac:(lia)) as Hr.
  unfold Z.modulo in Hr.
  destruct (Z.div_eucl (Zpos mx * 9007199254740992) 7036874417766400)
    as [q r].
  assert (Hq1 : 4503599627370496 <= q) by lia.
  assert (Hq2 : q < 18014398509481984) by lia.
  assert (Hq3 : ex = -46 -> q < 9007199254740992) by lia.
  destruct (Zdigits2_pos_spec q ltac:(lia)) as (Hdq & Hq4 & Hq5).
  assert (Hdlo : 53 <= Zdigits2 q).
  { assert (Hlt : 2 ^ 52 < 2 ^ Zdigits2 q)
      by (change (2 ^ 52) with 4503599627370496; lia).
    apply Z.pow_lt_mono_r_iff in Hlt; lia. }
  assert (Hdhi : Zdigits2 q <= 54 /\ (ex = -46 -> Zdigits2 q <= 53)).
  { split.
    - assert (Hlt : 2 ^ (Zdigits2 q - 1) < 2 ^ 54)
        by (change (2 ^ 54) with 18014398509481984; lia).
      apply Z.pow_lt_mono_r_iff in Hlt; lia.
    - intros He. specialize (Hq3 He).
      assert (Hlt : 2 ^ (Zdigits2 q - 1) < 2 ^ 53)
        by (change (2 ^ 53) with 9007199254740992; lia).
      apply Z.pow_lt_mono_r_iff in Hlt; lia. }
  apply (rounded_unit (Zdigits2 q + (ex - 7))); [lia|].
  apply round_aux_spec; try lia.
  intros _. rewrite fexp_binary64. lia.
Qed.

Lemma float_le_not_nan (x y : float) : float_le x y = true -> is_nan y = false.
Proof.
  unfold float_le, SFleb.
  destruct x as [?|?| |? ? ?], y as [?|?| |? ? ?]; cbn; congruence.
Qed.

Lemma to_fraction_range (s : string) (r : float) :
  _to_fraction s = Ok r -> fraction_of_field s r.
Proof.
  intros H. apply to_fraction_ok in H. destruct H as (v & Hv & ->).
  exists v. split; [exact Hv|]. split; [reflexivity|].
  intros H0 H100. destruct (float_gt v f1) eqn:Hgt.
  - apply percent_to_unit; [|exact Hgt|exact H100].
    apply (py_float_valid s), Hv.
  - split; [exact H0|]. unfold float_le.
    apply SFltb_total; [reflexivity | | exact Hgt].
    apply (float_le_not_nan f0), H0.
Qed.

(** C5, negated as stated: the results [150] and [-5] are accepted and
    stored as [1.5] and [-5.0], outside the unit interval. *)
Lemma C5_fraction_outside_unit_interval :
  build_outcome ["h"; "Oct,1,1000 LV,150,-5"]
  = (Ok tt,
     {| month := ["Oct"]; date := [1]; sample := [1000];
        sample_type := ["likely voters"];
        Harris_result := [S754_finite false 6755399441055744 (-52)];
        Trump_result := [S754_finite true 5629499534213120 (-50)] |})
  /\ S754_finite false 6755399441055744 (-52)
     = float_div (float_of_Z 3) (float_of_Z 2)
  /\ S754_finite true 5629499534213120 (-50) = float_of_Z (-5)
  /\ float_le (S754_finite false 6755399441055744 (-52)) f1 = false
  /\ float_le f0 (S754_finite true 5629499534213120 (-50)) = false.
Proof. repeat split; vm_compute; reflexivity. Qed.

(** C5, amended. After a successful build, the stored Harris and Trump
    results of every record come from the fourth and fifth field of its row
    (the complete rows after the header, in order): with [v] the parsed
    value, [v / 100] is stored when [v > 1.0] and [v] itself otherwise; the
    stored fraction lies in [[0, 1]] whenever [v] lies in [[0, 100]]. *)
Theorem C5_result_fractions (lines : list string) (self : PollReader) :
  build_data_dict (init lines) = (Ok tt, self) ->
  Forall2 (fun row r => fraction_of_field (field 3 row) r)
    (filter complete (tl lines)) (Harris_result (data_dict self))
  /\ Forall2 (fun row r => fraction_of_field (field 4 row) r)
       (filter complete (tl lines)) (Trump_result (data_dict self)).
Proof.
  intros H. apply built_columns in H.
  destruct H as (recs & Hrecs & _ & _ & _ & _ & -> & ->).
  split; apply (Forall2_map_r _ reads); try exact Hrecs.
  - intros row r (_ & _ & _ & Hh & _). apply to_fraction_range, Hh.
  - intros row r (_ & _ & _ & _ & Ht). apply to_fraction_range, Ht.
Qed.

Lemma C5_result_fractions_witness :
  Forall2 (fun row r => fraction_of_field (field 3 row) r)
    (filter complete (tl ["h"; "Oct,1,1000 LV,55,0.45"; "x"]))
    (Harris_result
       (data_dict
          (snd (build_data_dict (init ["h"; "Oct,1,1000 LV,55,0.45"; "x"])))))
  /\ Forall2 (fun row r => fraction_of_field (field 4 row) r)
       (filter complete (tl ["h"; "Oct,1,1000 LV,55,0.45"; "x"]))
       (Trump_result
          (data_dict
             (snd (build_data_dict
                     (init ["h"; "Oct,1,1000 LV,55,0.45"; "x"]))))).
Proof.
  apply (C5_result_fractions ["h"; "Oct,1,1000 LV,55,0.45"; "x"]).
  vm_compute. reflexivity.
Defined.

(** ** C9: percentage notation against fraction notation *)

Lemma float_same_eq (x y : float) : float_same x y = true -> x = y.
Proof.
  destruct x as [s|s| |s m e], y as [s'|s'| |s' m' e']; cbn;
    try discriminate; try reflexivity.
  - intros H. apply Bool.eqb_prop in H. congruence.
  - intros H. apply Bool.eqb_prop in H. congruence.
  - intros H. apply andb_true_iff in H. destruct H as [H H3].
    apply andb_true_iff in H. destruct H as [H1 H2].
    apply Bool.eqb_prop in H1. apply Pos.eqb_eq in H2. apply Z.eqb_eq in H3.
    congruence.
Qed.

Lemma whole_percentages_agree :
  forallb notations_agree (map Z.of_nat (seq 2 99)) = true.
Proof. vm_compute. reflexivity. Qed.

(** C9, negated as stated: one half of a percent written [0.5] is
    stored as [0.5] while its fraction [0.005] is stored as [0.005]; and
    [49.34] is stored one unit in the last place above [0.4934]. *)
Lemma C9_notations_stored_differently :
  _to_fraction "0.5" = Ok (S754_finite false 4503599627370496 (-53))
  /\ _to_fraction "0.005" = Ok (S754_finite false 5764607523034235 (-60))
  /\ _to_fraction "49.34" = Ok (S754_finite false 8888304224578412 (-54))
  /\ _to_fraction "0.4934" = Ok (S754_finite false 8888304224578411 (-54))
  /\ _to_fraction "0.5" <> _to_fraction "0.005"
  /\ _to_fraction "49.34" <> _to_fraction "0.4934".
Proof. repeat split; vm_compute; try reflexivity; discriminate. Qed.

(** C9, amended. For every whole percentage [p] from 2 to 100, the
    percentage notation (as [55]) and the fraction notation with two
    decimals (as [0.55]) are stored as the same number, the binary64
    nearest to [p / 100]. *)
Theorem C9_whole_percentages (p : Z) :
  2 <= p <= 100 ->
  exists r,
    _to_fraction (percent_notation p) = Ok r
    /\ _to_fraction (fraction_notation p) = Ok r
    /\ r = float_div (float_of_Z p) f100.
Proof.
  intros Hp.
  pose proof whole_percentages_agree as H.
  rewrite forallb_forall in H.
  specialize (H p). unfold notations_agree in H.
  destruct (_to_fraction (percent_notation p)) as [a|];
    destruct (_to_fraction (fraction_notation p)) as [b|].
  - assert (Hin : In p (map Z.of_nat (seq 2 99))).
    { apply in_map_iff. exists (Z.to_nat p). split; [lia|].
      apply in_seq. lia. }
    apply H in Hin. apply andb_true_iff in Hin. destruct Hin as [H1 H2].
    apply float_same_eq in H1, H2. subst b.
    exists a. repeat split. exact H2.
  - exfalso. assert (false = true); [|discriminate].
    apply H. apply in_map_iff. exists (Z.to_nat p). split; [lia|].
    apply in_seq. lia.
  - exfalso. assert (false = true); [|discriminate].
    apply H. apply in_map_iff. exists (Z.to_nat p). split; [lia|].
    apply in_seq. lia.
  - exfalso. assert (false = true); [|discriminate].
    apply H. apply in_map_iff. exists (Z.to_nat p). split; [lia|].
    apply in_seq. lia.
Qed.

Lemma C9_whole_percentages_witness :
  exists r,
    _to_fraction "55" = Ok r /\ _to_fraction "0.55" = Ok r
    /\ r = float_div (float_of_Z 55) f100.
Proof.
  apply (C9_whole_percentages 55). lia.
Defined.

(** * Further properties of the build and of the queries *)

(** ** The records of a build *)

Lemma reads_fun (row : string) (r r' : poll_record) :
  reads row r -> reads row r' -> r = r'.
Proof.
  destruct r as [m d n l h t], r' as [m' d' n' l' h' t'].
  unfold reads; cbn.
  intros (H1 & H2 & (st & H3 & H4) & H5 & H6)
         (H1' & H2' & (st' & H3' & H4') & H5' & H6').
  rewrite H3 in H3'. injection H3' as -> <-.
  rewrite H2 in H2'. rewrite H5 in H5'. rewrite H6 in H6'.
  congruence.
Qed.

Lemma build_row_reads (row : string) (r : poll_record) (self : PollReader) :
  complete row = true -> reads row r ->
  build_row row self = (Ok tt, set_dict self (push (data_dict self) r)).
Proof.
  intros Hc Hr.
  destruct (build_row_complete row self Hc) as [(r0 & Hr0 & Hb) | (Hf & _)].
  - rewrite (reads_fun row r r0 Hr Hr0). exact Hb.
  - exfalso. exact (reads_not_fails row r Hr Hf).
Qed.

(** When every complete row is read into its record, the loop succeeds
    from any state and pushes these records. *)
Lemma build_loop_records (i : nat) (rows : list string)
    (recs : list poll_record) :
  Forall2 reads (filter complete rows) recs ->
  forall self,
    build_loop (S i) rows self
    = (Ok tt, set_dict self (fold_left push recs (data_dict self))).
Proof.
  revert i recs. induction rows as [|row rest IH]; intros i recs H self.
  - cbn in H. inversion H; subst. cbn. rewrite set_dict_id. reflexivity.
  - cbn [filter] in H. cbn [build_loop Nat.eqb]. unfold bind.
    destruct (complete row) eqn:Hc.
    + inversion H as [|? r ? recs' Hr Hrest]; subst.
      rewrite (build_row_reads row r self Hc Hr).
      rewrite (IH _ recs' Hrest). reflexivity.
    + rewrite (build_row_skip row self Hc). apply IH, H.
Qed.

Lemma dict_eq (d d' : data_dict_t) :
  month d = month d' -> date d = date d' -> sample d = sample d' ->
  sample_type d = sample_type d' -> Harris_result d = Harris_result d' ->
  Trump_result d = Trump_result d' -> d = d'.
Proof. destruct d, d'; cbn; intros; subst; reflexivity. Qed.

Lemma fold_push_app (recs : list poll_record) (d : data_dict_t) :
  fold_left push recs d = dict_app d (fold_left push recs empty_dict).
Proof.
  destruct (fold_push_columns recs d) as (E1 & E2 & E3 & E4 & E5 & E6).
  destruct (fold_push_columns recs empty_dict)
    as (F1 & F2 & F3 & F4 & F5 & F6).
  apply dict_eq; cbn [dict_app month date sample sample_type Harris_result
                        Trump_result];
    [rewrite E1, F1 | rewrite E2, F2 | rewrite E3, F3 | rewrite E4, F4
     | rewrite E5, F5 | rewrite E6, F6]; reflexivity.
Qed.

(** The outcome of a successful build, from its records. *)
Lemma build_outcome_records (hdr : string) (rows : list string)
    (recs : list poll_record) :
  Forall2 reads (filter complete rows) recs ->
  build_outcome (hdr :: rows) = (Ok tt, fold_left push recs empty_dict).
Proof.
  intros H. rewrite build_outcome_cons.
  rewrite (build_loop_records 0 rows recs H). reflexivity.
Qed.

Lemma build_outcome_ok (hdr : string) (rows : list string) (d : data_dict_t) :
  build_outcome (hdr :: rows) = (Ok tt, d) ->
  exists recs,
    Forall2 reads (filter complete rows) recs
    /\ d = fold_left push recs empty_dict.
Proof.
  rewrite build_outcome_cons.
  destruct (build_loop 1 rows (init (hdr :: rows))) as [[[]|e] s'] eqn:E;
    [|discriminate].
  intros [= <-]. apply build_loop_ok in E. destruct E as (recs & Hr & ->).
  exists recs. split; [exact Hr | reflexivity].
Qed.

(** X1. After a successful build the month column is the first trimmed
    field of the complete rows after the header, in the order of the input,
    and every column has as many items as there are such rows. *)
Theorem X1_records_in_row_order (lines : list string) (self : PollReader) :
  build_data_dict (init lines) = (Ok tt, self) ->
  let rows := filter complete (tl lines) in
  month (data_dict self) = map (field 0) rows
  /\ record_count self = List.length rows
  /\ List.length (date (data_dict self)) = List.length rows
  /\ List.length (sample (data_dict self)) = List.length rows
  /\ List.length (sample_type (data_dict self)) = List.length rows
  /\ List.length (Harris_result (data_dict self)) = List.length rows
  /\ List.length (Trump_result (data_dict self)) = List.length rows.
Proof.
  intros H rows. apply built_columns in H. fold rows in H.
  destruct H as (recs & Hrecs & H1 & H2 & H3 & H4 & H5 & H6).
  pose proof (Forall2_length Hrecs) as Hlen.
  unfold record_count. rewrite H1, H2, H3, H4, H5, H6, !length_map.
  repeat split; try (symmetry; exact Hlen).
  clear - Hrecs. induction Hrecs as [|row r rows recs Hr _ IH]; cbn.
  - reflexivity.
  - destruct Hr as (-> & _). rewrite IH. reflexivity.
Qed.

Lemma X1_records_in_row_order_witness :
  month
    (data_dict
       (snd (build_data_dict
               (init ["h"; " Oct ,1,1000 LV,55,45"; "short,row"; "Nov,2,9,5,5"]))))
  = ["Oct"; "Nov"].
Proof.
  destruct (X1_records_in_row_order
              ["h"; " Oct ,1,1000 LV,55,45"; "short,row"; "Nov,2,9,5,5"]
              (snd (build_data_dict
                      (init ["h"; " Oct ,1,1000 LV,55,45"; "short,row";
                             "Nov,2,9,5,5"])))) as [H _].
  - vm_compute. reflexivity.
  - rewrite H. vm_compute. reflexivity.
Defined.

(** ** The stored label *)

Lemma sample_column_label (f : string) (n : Z) (st : string) :
  sample_column f = Ok (n, st) ->
  stored_label st
  = if match PyStr.split f with
       | [_; t] => String.eqb t "LV"
       | _ => false
       end
    then "likely voters" else "registered voters".
Proof.
  unfold sample_column, getitem, len.
  destruct (PyStr.split f) as [|t0 [|t1 [|t2 rest]]];
    cbn [nth_error List.length].
  - destruct (_ =? 2); discriminate.
  - destruct (Z.eqb_spec (Z.of_nat 1) 2) as [E|_]; [lia|].
    destruct (py_int t0); [|discriminate]. intros [= _ <-]. reflexivity.
  - destruct (Z.eqb_spec (Z.of_nat 2) 2) as [_|N]; [|lia].
    destruct (py_int t0); [|discriminate]. intros [= _ <-].
    unfold stored_label.
    destruct (String.eqb_spec t1 "LV") as [->|N1]; [reflexivity|].
    destruct (String.eqb_spec t1 "RV") as [->|N2]; [reflexivity|].
    cbn [orb]. reflexivity.
  - destruct (Z.eqb_spec (Z.of_nat (S (S (S (List.length rest))))) 2)
      as [E|_]; [lia|].
    destruct (py_int t0); [|discriminate]. intros [= _ <-]. reflexivity.
Qed.

(** X2. After a successful build the stored sample type of a record is
    [likely voters] exactly when the sample descriptor of its row has two
    whitespace-separated tokens of which the second is [LV]; for every other
    row, with one token, with three or more (whatever they are), or with
    another second token, it is [registered voters]. *)
Theorem X2_label_rule (lines : list string) (self : PollReader) :
  build_data_dict (init lines) = (Ok tt, self) ->
  sample_type (data_dict self)
  = map (fun row => if two_tokens_LV row then "likely voters"
                    else "registered voters")
      (filter complete (tl lines)).
Proof.
  intros H. apply built_columns in H.
  destruct H as (recs & Hrecs & _ & _ & _ & -> & _).
  induction Hrecs as [|row r rows recs Hr _ IH]; cbn [map].
  - reflexivity.
  - rewrite IH. f_equal.
    destruct Hr as (_ & _ & (st & Hs & ->) & _).
    apply (sample_column_label _ _ _ Hs).
Qed.

Lemma X2_label_rule_witness :
  sample_type
    (data_dict
       (snd (build_data_dict
               (init ["h"; "Oct,1,1000 LV,55,45"; "Oct,2,1000 LV x,55,45";
                      "Oct,3,7,55,45"; "Oct,4,7 lv,55,45"]))))
  = ["likely voters"; "registered voters"; "registered voters";
     "registered voters"].
Proof.
  rewrite (X2_label_rule
             ["h"; "Oct,1,1000 LV,55,45"; "Oct,2,1000 LV x,55,45";
              "Oct,3,7,55,45"; "Oct,4,7 lv,55,45"]).
  - vm_compute. reflexivity.
  - vm_compute. reflexivity.
Defined.

(** ** The loop body in direct style *)

Lemma build_row_trace (row : string) (self : PollReader) :
  complete row = true ->
  build_row row self
  = (fst (row_trace row (data_dict self)),
     set_dict self (snd (row_trace row (data_dict self)))).
Proof.
  intros Hc.
  assert (Hlt : (len (fields row) <? 5) = false)
    by (apply negb_true_iff; exact Hc).
  unfold build_row, row_trace. fold (fields row). rewrite Hlt.
  rewrite (complete_getitem row 0 Hc) by lia. row_step.
  rewrite (complete_getitem row 1 Hc) by lia. row_step.
  destruct (py_int (field 1 row)) as [d|e];
    [|rewrite bind_lift_raise; reflexivity].
  row_step.
  rewrite (complete_getitem row 2 Hc) by lia. row_step.
  destruct (sample_column (field 2 row)) as [st|e];
    [|rewrite bind_lift_raise; reflexivity].
  row_step.
  rewrite (complete_getitem row 3 Hc) by lia. row_step.
  destruct (_to_fraction (field 3 row)) as [h|e];
    [|rewrite bind_lift_raise; reflexivity].
  row_step.
  rewrite (complete_getitem row 4 Hc) by lia. row_step.
  destruct (_to_fraction (field 4 row)) as [t|e];
    [|rewrite bind_lift_raise; reflexivity].
  row_step. reflexivity.
Qed.

Lemma nth_firstn_lt {A : Type} (l : list A) (n i : nat) (dflt : A) :
  (i < n)%nat -> nth i (firstn n l) dflt = nth i l dflt.
Proof.
  revert n i. induction l as [|x l IH]; intros [|n] [|i] H; cbn;
    try reflexivity; try lia.
  apply IH. lia.
Qed.

Lemma field_of_first_five (row row' : string) (i : nat) :
  firstn 5 (fields row) = firstn 5 (fields row') -> (i < 5)%nat ->
  field i row = field i row'.
Proof.
  intros H Hi. unfold field.
  rewrite <- (nth_firstn_lt (fields row) 5 i) by exact Hi.
  rewrite <- (nth_firstn_lt (fields row') 5 i) by exact Hi.
  rewrite H. reflexivity.
Qed.

Lemma build_row_first_five (row row' : string) (self : PollReader) :
  complete row = true -> complete row' = true ->
  firstn 5 (fields row) = firstn 5 (fields row') ->
  build_row row self = build_row row' self.
Proof.
  intros Hc Hc' H.
  rewrite (build_row_trace row self Hc), (build_row_trace row' self Hc').
  unfold row_trace.
  rewrite (field_of_first_five row row' 0 H), (field_of_first_five row row' 1 H),
    (field_of_first_five row row' 2 H), (field_of_first_five row row' 3 H),
    (field_of_first_five row row' 4 H) by lia.
  reflexivity.
Qed.

(** X3. The fields of a row after the fifth are not read: replacing a
    row that has at least five fields by any row with the same first five
    trimmed fields changes neither how the build ends nor the store it
    leaves. *)
Theorem X3_fields_after_fifth_ignored
    (hdr row row' : string) (pre post : list string) :
  complete row = true -> complete row' = true ->
  firstn 5 (fields row) = firstn 5 (fields row') ->
  build_outcome (hdr :: pre ++ row :: post)
  = build_outcome (hdr :: pre ++ row' :: post).
Proof.
  intros Hc Hc' H.
  rewrite (build_outcome_raw hdr hdr (pre ++ row :: post)
             (pre ++ row' :: post)).
  rewrite build_outcome_cons, !build_loop_app.
  destruct (build_loop 1 pre (init (hdr :: pre ++ row' :: post)))
    as [[[]|e] s']; [|reflexivity].
  cbn [build_loop Nat.eqb]. unfold bind.
  rewrite (build_row_first_five row row' s' Hc Hc' H). reflexivity.
Qed.

Lemma X3_fields_after_fifth_ignored_witness :
  build_outcome ("h" :: ["Oct,1,9 LV,5,5"] ++ "Nov,2,7 RV,50,40,x,,y" :: [])
  = build_outcome ("h" :: ["Oct,1,9 LV,5,5"] ++ " Nov , 2,7 RV ,50,40" :: []).
Proof.
  apply X3_fields_after_fifth_ignored; vm_compute; reflexivity.
Defined.

(** ** A build that raises *)

Lemma row_trace_lengths (row : string) (d : data_dict_t) :
  aligned d ->
  match row_trace row d with
  | (Ok _, d') => aligned d'
  | (Raise _, d') => staggered d'
  end.
Proof.
  intros (H1 & H2 & H3 & H4 & H5). unfold row_trace.
  destruct (py_int (field 1 row)) as [dt|e].
  2:{ unfold staggered; cbn. rewrite length_app; cbn. lia. }
  destruct (sample_column (field 2 row)) as [st|e].
  2:{ unfold staggered; cbn. rewrite !length_app; cbn. lia. }
  destruct (_to_fraction (field 3 row)) as [h|e].
  2:{ unfold staggered; cbn. rewrite !length_app; cbn. lia. }
  destruct (_to_fraction (field 4 row)) as [t|e].
  2:{ unfold staggered; cbn. rewrite !length_app; cbn. lia. }
  unfold aligned; cbn. rewrite !length_app; cbn. lia.
Qed.

Lemma build_loop_raise_staggered (i : nat) (rows : list string)
    (self self' : PollReader) (e : exn) :
  aligned (data_dict self) ->
  build_loop (S i) rows self = (Raise e, self') ->
  staggered (data_dict self').
Proof.
  revert i self. induction rows as [|row rest IH]; intros i self Ha H.
  - discriminate.
  - cbn [build_loop Nat.eqb] in H. unfold bind in H.
    destruct (complete row) eqn:Hc.
    + rewrite (build_row_trace row self Hc) in H.
      pose proof (row_trace_lengths row (data_dict self) Ha) as Hl.
      destruct (row_trace row (data_dict self)) as [[[]|e'] d'];
        cbn [fst snd] in H.
      * apply IH in H; [exact H | exact Hl].
      * injection H as _ <-. exact Hl.
    + rewrite (build_row_skip row self Hc) in H. apply IH in H; assumption.
Qed.

(** X4. When [build_data_dict] raises on a reader whose columns have
    equal length (a fresh one in particular), it has raised a parse error
    and it leaves a partial record behind: the month column is exactly one
    item longer than the Trump result column, the lengths of the columns do
    not increase in the order of the appends, and the sample and sample type
    columns have the same length. *)
Theorem X4_failed_build_leaves_partial_record
    (self self' : PollReader) (e : exn) :
  aligned (data_dict self) ->
  build_data_dict self = (Raise e, self') ->
  parse_error e /\ staggered (data_dict self')
  /\ ~ aligned (data_dict self').
Proof.
  intros Ha H. unfold build_data_dict in H.
  destruct (raw_data self) as [|hdr rest]; [discriminate|].
  cbn [build_loop Nat.eqb] in H. unfold bind, ret in H.
  pose proof (build_loop_raise _ _ _ _ _ H) as He.
  pose proof (build_loop_raise_staggered _ _ _ _ _ Ha H) as Hs.
  split; [exact He|]. split; [exact Hs|].
  destruct Hs as (S1 & S2 & S3 & S4 & S5 & S6).
  intros (A1 & A2 & A3 & A4 & A5). lia.
Qed.

Lemma X4_failed_build_leaves_partial_record_witness :
  let self' :=
    snd (build_data_dict (init ["h"; "Oct,1,9 LV,5,5"; "Nov,2,7 RV,x,4"])) in
  staggered (data_dict self')
  /\ month (data_dict self') = ["Oct"; "Nov"]
  /\ Harris_result (data_dict self') = [float_div (float_of_Z 5) f100].
Proof.
  split.
  - apply (X4_failed_build_leaves_partial_record
             (init ["h"; "Oct,1,9 LV,5,5"; "Nov,2,7 RV,x,4"]) _ ValueError).
    + repeat split.
    + vm_compute. reflexivity.
  - split; vm_compute; reflexivity.
Defined.

(** ** Building twice, and building a longer file *)

(** X5. [build_data_dict] does not reset the store: called a second
    time after a successful build of a fresh reader, it succeeds again and
    appends the same records again, so that every column holds its former
    contents twice. *)
Theorem X5_second_build_appends_again (lines : list string)
    (self : PollReader) :
  build_data_dict (init lines) = (Ok tt, self) ->
  exists self2,
    build_data_dict self = (Ok tt, self2)
    /\ data_dict self2 = dict_app (data_dict self) (data_dict self).
Proof.
  intros H. apply build_data_dict_ok in H.
  destruct H as (recs & Hrecs & ->).
  unfold build_data_dict. cbn [raw_data set_dict init].
  destruct lines as [|hdr rest].
  - cbn in Hrecs. inversion Hrecs; subst. cbn.
    eexists. split; reflexivity.
  - cbn [tl] in Hrecs. cbn [build_loop Nat.eqb]. unfold bind, ret.
    rewrite (build_loop_records 0 rest recs Hrecs).
    eexists. split; [reflexivity|].
    cbn [data_dict set_dict]. rewrite fold_push_app at 1.
    reflexivity.
Qed.

Lemma X5_second_build_appends_again_witness :
  exists self2,
    build_data_dict
      (snd (build_data_dict (init ["h"; "Oct,1,9 LV,5,5"])))
    = (Ok tt, self2)
    /\ month (data_dict self2) = ["Oct"; "Oct"].
Proof.
  destruct (X5_second_build_appends_again ["h"; "Oct,1,9 LV,5,5"]
              (snd (build_data_dict (init ["h"; "Oct,1,9 LV,5,5"]))))
    as (self2 & H1 & H2).
  - vm_compute. reflexivity.
  - exists self2. split; [exact H1|]. rewrite H2. vm_compute. reflexivity.
Defined.

(** X12. Building is row by row: when the rows [a] and the rows [b]
    each build successfully under a header, the rows [a ++ b] build
    successfully too, and the store is the store of [a] followed, column by
    column, by the store of [b]. *)
Theorem X12_build_of_concatenation (hdr hdr' : string) (a b : list string)
    (da db : data_dict_t) :
  build_outcome (hdr :: a) = (Ok tt, da) ->
  build_outcome (hdr' :: b) = (Ok tt, db) ->
  build_outcome (hdr :: a ++ b) = (Ok tt, dict_app da db).
Proof.
  intros Ha Hb.
  apply build_outcome_ok in Ha, Hb.
  destruct Ha as (ra & Hra & ->), Hb as (rb & Hrb & ->).
  rewrite (build_outcome_records hdr (a ++ b) (ra ++ rb)).
  - rewrite fold_left_app, fold_push_app. reflexivity.
  - rewrite filter_app. apply Forall2_app; assumption.
Qed.

Lemma X12_build_of_concatenation_witness :
  build_outcome ("h" :: ["Oct,1,9 LV,5,5"] ++ ["bad"; "Nov,2,7 RV,50,40"])
  = (Ok tt,
     dict_app (snd (build_outcome ["h"; "Oct,1,9 LV,5,5"]))
       (snd (build_outcome ["x"; "bad"; "Nov,2,7 RV,50,40"]))).
Proof.
  apply (X12_build_of_concatenation "h" "x"); vm_compute; reflexivity.
Defined.

(** ** A file without data rows *)

(** X9. When no line after the first has five fields (an empty file, a
    header alone, or only short rows), the build succeeds and leaves the
    store empty, and on it the three queries return [EVEN 0.0%],
    [(0.0, 0.0)] and [(0.0, 0.0)]. *)
Theorem X9_no_data_rows (lines : list string) :
  filter complete (tl lines) = [] ->
  build_data_dict (init lines) = (Ok tt, init lines)
  /\ highest_polling_candidate (init lines) = Ok "EVEN 0.0%"
  /\ likely_voter_polling_average (init lines) = Ok (f0, f0)
  /\ polling_history_change (init lines) = Ok (f0, f0).
Proof.
  intros H. split; [|repeat split].
  unfold build_data_dict. cbn [raw_data init].
  destruct lines as [|hdr rest]; [reflexivity|].
  cbn [tl] in H. cbn [build_loop Nat.eqb]. unfold bind, ret.
  rewrite (build_loop_records 0 rest []); [reflexivity|].
  rewrite H. constructor.
Qed.

Lemma X9_no_data_rows_witness :
  build_data_dict (init ["month,date,sample"; ""; "a,b,c,d"])
  = (Ok tt, init ["month,date,sample"; ""; "a,b,c,d"]).
Proof.
  apply (X9_no_data_rows ["month,date,sample"; ""; "a,b,c,d"]).
  vm_compute. reflexivity.
Defined.

(** ** The queries on any store *)

Lemma history_change_formula (self : PollReader) :
  let harris := Harris_result (data_dict self) in
  let trump := Trump_result (data_dict self) in
  let n := Nat.min 30 (Nat.min (List.length harris) (List.length trump)) in
  polling_history_change self
  = if Nat.eqb n 0 then Ok (f0, f0)
    else Ok (float_sub (mean (firstn n harris)) (mean (last_records n harris)),
             float_sub (mean (firstn n trump)) (mean (last_records n trump))).
Proof.
  intros harris trump n.
  assert (HnZ : Z.min (Z.min 30 (len harris)) (len trump) = Z.of_nat n)
    by (unfold len; subst n; lia).
  rewrite history_change_single_block.
  unfold polling_history_change_once. fold harris trump. rewrite HnZ.
  destruct (Nat.eqb_spec n 0) as [E|N].
  - rewrite E. reflexivity.
  - destruct (Z.eqb_spec (Z.of_nat n) 0); [lia|].
    rewrite window_averages_means by lia. reflexivity.
Qed.

(** X6. [polling_history_change] never raises, whatever the store, also
    one that a failed build left with columns of different lengths: with
    [n] the least of 30 and of the lengths of the two result columns, it
    returns [(0.0, 0.0)] when [n = 0], and otherwise, for each candidate, the
    mean of the first [n] results minus the mean of the last [n] results of
    its own column. *)
Theorem X6_history_change_on_any_store (self : PollReader) :
  let harris := Harris_result (data_dict self) in
  let trump := Trump_result (data_dict self) in
  let n := Nat.min 30 (Nat.min (List.length harris) (List.length trump)) in
  (n = 0%nat -> polling_history_change self = Ok (f0, f0))
  /\ (n <> 0%nat ->
      polling_history_change self
      = Ok (float_sub (mean (firstn n harris)) (mean (last_records n harris)),
            float_sub (mean (firstn n trump)) (mean (last_records n trump))))
  /\ exists changes, polling_history_change self = Ok changes.
Proof.
  intros harris trump n.
  pose proof (history_change_formula self) as H.
  cbv zeta in H. fold harris trump n in H.
  destruct (Nat.eqb_spec n 0) as [E|N].
  - split; [intros _; exact H|]. split; [intros C; contradiction|eauto].
  - split; [intros C; contradiction|]. split; [intros _; exact H | eauto].
Qed.

Lemma X6_history_change_on_any_store_witness :
  polling_history_change
    (snd (build_data_dict (init ["h"; "Oct,1,9 LV,5,5"; "Nov,2,7 RV,50,x"])))
  = Ok (float_sub (float_div (float_of_Z 5) f100)
          (float_div (float_of_Z 50) f100), f0).
Proof.
  destruct (X6_history_change_on_any_store
              (snd (build_data_dict
                      (init ["h"; "Oct,1,9 LV,5,5"; "Nov,2,7 RV,50,x"]))))
    as (_ & H & _).
  rewrite H; [vm_compute; reflexivity | vm_compute; discriminate].
Defined.

Lemma likely_loop_raise_inv (d : data_dict_t) (stypes : list string) :
  forall (i : nat) (hl tl : list float) (e : exn),
    likely_loop d i stypes hl tl = Raise e ->
    e = IndexError
    /\ exists k st,
         nth_error stypes k = Some st /\ is_likely st = true
         /\ ((List.length (Harris_result d) <= i + k)%nat
             \/ (List.length (Trump_result d) <= i + k)%nat).
Proof.
  induction stypes as [|stype rest IH]; intros i hl tl e H.
  - discriminate.
  - cbn [likely_loop] in H. fold (is_likely stype) in H.
    destruct (is_likely stype) eqn:Hl.
    + unfold getitem in H.
      destruct (nth_error (Harris_result d) i) as [h|] eqn:Eh.
      * destruct (nth_error (Trump_result d) i) as [t|] eqn:Et.
        -- apply IH in H. destruct H as (-> & k & st & Hk & Hst & Hr).
           split; [reflexivity|]. exists (S k), st.
           split; [exact Hk|]. split; [exact Hst|]. lia.
        -- injection H as <-. split; [reflexivity|].
           exists 0%nat, stype. split; [reflexivity|]. split; [exact Hl|].
           apply nth_error_None in Et. lia.
      * injection H as <-. split; [reflexivity|].
        exists 0%nat, stype. split; [reflexivity|]. split; [exact Hl|].
        apply nth_error_None in Eh. lia.
    + apply IH in H. destruct H as (-> & k & st & Hk & Hst & Hr).
      split; [reflexivity|]. exists (S k), st.
      split; [exact Hk|]. split; [exact Hst|]. lia.
Qed.

Lemma likely_loop_raises (d : data_dict_t) (stypes : list string) :
  forall (i k : nat) (st : string) (hl tl : list float),
    nth_error stypes k = Some st -> is_likely st = true ->
    (List.length (Harris_result d) <= i + k)%nat
    \/ (List.length (Trump_result d) <= i + k)%nat ->
    exists e, likely_loop d i stypes hl tl = Raise e.
Proof.
  induction stypes as [|stype rest IH]; intros i k st hl tl Hk Hst Hr.
  - destruct k; discriminate.
  - cbn [likely_loop]. fold (is_likely stype).
    destruct k as [|k].
    + injection Hk as ->. rewrite Hst. unfold getitem.
      destruct (nth_error (Harris_result d) i) as [h|] eqn:Eh; [|eauto].
      destruct (nth_error (Trump_result d) i) as [t|] eqn:Et; [|eauto].
      assert (i < List.length (Harris_result d))%nat
        by (apply nth_error_Some; congruence).
      assert (i < List.length (Trump_result d))%nat
        by (apply nth_error_Some; congruence).
      lia.
    + cbn [nth_error] in Hk.
      assert (Hr' : (List.length (Harris_result d) <= S i + k)%nat
                    \/ (List.length (Trump_result d) <= S i + k)%nat) by lia.
      destruct (is_likely stype).
      * unfold getitem.
        destruct (nth_error (Harris_result d) i) as [h|]; [|eauto].
        destruct (nth_error (Trump_result d) i) as [t|]; [|eauto].
        apply (IH (S i) k st); assumption.
      * apply (IH (S i) k st); assumption.
Qed.

(** X7. [likely_voter_polling_average] raises exactly when some position
    of the sample type column holds a likely-voter label and is not a
    position of the Harris or of the Trump result column (as a failed build
    can leave it), and then it raises [IndexError]; it never raises anything
    else, a division by zero in particular. *)
Theorem X7_likely_average_index_error (self : PollReader) :
  (likely_voter_polling_average self = Raise IndexError
   <-> exists k, likely_out_of_range (data_dict self) k)
  /\ (forall e, likely_voter_polling_average self = Raise e -> e = IndexError).
Proof.
  assert (Hinv : forall e, likely_voter_polling_average self = Raise e ->
                 e = IndexError
                 /\ exists k, likely_out_of_range (data_dict self) k).
  { intros e. unfold likely_voter_polling_average.
    destruct (likely_loop (data_dict self) 0 (sample_type (data_dict self))
                [] []) as [[hl tl]|e'] eqn:E.
    - rewrite !avg_or_zero_mean. discriminate.
    - intros [= <-]. apply likely_loop_raise_inv in E.
      destruct E as (-> & k & st & Hk & Hst & Hr).
      split; [reflexivity|]. exists k, st. auto. }
  split; [split|].
  - intros H. apply Hinv in H. apply H.
  - intros (k & st & Hk & Hst & Hr).
    destruct (likely_loop_raises (data_dict self) _ 0 k st [] [] Hk Hst Hr)
      as [e He].
    assert (Hlv : likely_voter_polling_average self = Raise e)
      by (unfold likely_voter_polling_average; rewrite He; reflexivity).
    destruct (Hinv e Hlv) as [-> _]. exact Hlv.
  - intros e H. apply Hinv in H. apply H.
Qed.

Lemma X7_likely_average_index_error_witness :
  likely_voter_polling_average
    (snd (build_data_dict (init ["h"; "Oct,1,9 LV,5,5"; "Nov,2,7 LV,x,4"])))
  = Raise IndexError.
Proof.
  apply (X7_likely_average_index_error
           (snd (build_data_dict
                   (init ["h"; "Oct,1,9 LV,5,5"; "Nov,2,7 LV,x,4"])))).
  exists 1%nat, "likely voters". vm_compute. auto.
Defined.

(** ** Thirty records or fewer *)

Lemma float_sub_diag (x : float) : is_finite x = true -> float_sub x x = f0.
Proof.
  destruct x as [[]|s| |s m e]; try discriminate; intros _; try reflexivity.
  unfold float_sub, SFsub. rewrite Z.sub_diag. reflexivity.
Qed.

Lemma last_records_all {A : Type} (l : list A) :
  last_records (List.length l) l = l.
Proof. unfold last_records. rewrite Nat.sub_diag. reflexivity. Qed.

(** X8. On a built store with at least one and at most thirty records
    both windows of [polling_history_change] are the whole column, so each
    change is a mean minus itself: the result is [(0.0, 0.0)] whenever the
    two means are finite, whatever the results are. *)
Theorem X8_at_most_thirty_records (self : PollReader) :
  built self ->
  (0 < record_count self <= 30)%nat ->
  is_finite (mean (Harris_result (data_dict self))) = true ->
  is_finite (mean (Trump_result (data_dict self))) = true ->
  polling_history_change self = Ok (f0, f0).
Proof.
  intros Hb Hc Hh Ht.
  destruct (built_aligned self Hb) as (_ & _ & _ & Lh & Lt).
  fold (record_count self) in Lh, Lt.
  rewrite history_change_formula. cbv zeta. rewrite Lh, Lt.
  replace (Nat.min 30 (Nat.min (record_count self) (record_count self)))
    with (record_count self) by lia.
  destruct (Nat.eqb_spec (record_count self) 0); [lia|].
  rewrite <- Lh at 1 2. rewrite firstn_all, last_records_all.
  rewrite <- Lt. rewrite firstn_all, last_records_all.
  rewrite (float_sub_diag _ Hh), (float_sub_diag _ Ht). reflexivity.
Qed.

Lemma X8_at_most_thirty_records_witness :
  polling_history_change
    (snd (build_data_dict
            (init ["h"; "Oct,1,9 LV,90,5"; "Nov,2,7 RV,10,40";
                   "Nov,3,7 RV,20,60"])))
  = Ok (f0, f0).
Proof.
  apply X8_at_most_thirty_records.
  - exists ["h"; "Oct,1,9 LV,90,5"; "Nov,2,7 RV,10,40"; "Nov,3,7 RV,20,60"].
    vm_compute. reflexivity.
  - vm_compute. lia.
  - vm_compute. reflexivity.
  - vm_compute. reflexivity.
Defined.

(** ** The label and the report *)

Lemma highest_label (self : PollReader) :
  highest_polling_candidate self
  = Ok (percent_label (shown_name self) (shown_max self)).
Proof.
  unfold highest_polling_candidate, shown_name, shown_max.
  rewrite !guarded_max.
  destruct (float_gt _ _); [reflexivity|].
  destruct (float_gt _ _); reflexivity.
Qed.

Lemma col_max_not_nan (l : list float) :
  forallb (fun y => negb (is_nan y)) l = true -> is_nan (col_max l) = false.
Proof.
  intros H. destruct l as [|x r]; [reflexivity|].
  pose proof (scan_max_in r x) as Hin.
  rewrite forallb_forall in H. apply H in Hin.
  apply negb_true_iff in Hin. exact Hin.
Qed.

Lemma col_max_upper (l : list float) :
  forallb (fun y => negb (is_nan y)) l = true ->
  Forall (fun y => float_le y (col_max l) = true) l.
Proof.
  destruct l as [|x r]; [constructor|]. intros Hn.
  cbn [forallb] in Hn. apply andb_true_iff in Hn. destruct Hn as [Hx Hr].
  apply negb_true_iff in Hx. apply scan_max_upper; assumption.
Qed.

Lemma Forall_le_trans (l : list float) (m m' : float) :
  float_le m m' = true ->
  Forall (fun y => float_le y m = true) l ->
  Forall (fun y => float_le y m' = true) l.
Proof.
  intros Hm H. induction H as [|y l Hy _ IH]; constructor; [|exact IH].
  unfold float_le in *. exact (SFleb_trans _ _ _ Hy Hm).
Qed.

(** X11. When both result columns are non-empty and hold no NaN, the
    number in the label of [highest_polling_candidate] is the greatest of
    all the stored results of the two candidates: it is one of them and none
    exceeds it. *)
Theorem X11_label_shows_overall_maximum (self : PollReader) :
  let harris := Harris_result (data_dict self) in
  let trump := Trump_result (data_dict self) in
  harris <> [] -> trump <> [] ->
  forallb (fun y => negb (is_nan y)) (harris ++ trump) = true ->
  highest_polling_candidate self
  = Ok (percent_label (shown_name self) (shown_max self))
  /\ In (shown_max self) (harris ++ trump)
  /\ Forall (fun y => float_le y (shown_max self) = true) (harris ++ trump).
Proof.
  intros harris trump Hh Ht Hn.
  rewrite forallb_app in Hn. apply andb_true_iff in Hn.
  destruct Hn as [Hnh Hnt].
  split; [apply highest_label|].
  assert (Ih : In (col_max harris) harris)
    by (destruct harris; [congruence | apply scan_max_in]).
  assert (It : In (col_max trump) trump)
    by (destruct trump; [congruence | apply scan_max_in]).
  pose proof (col_max_upper harris Hnh) as Uh.
  pose proof (col_max_upper trump Hnt) as Ut.
  pose proof (col_max_not_nan harris Hnh) as Nh.
  pose proof (col_max_not_nan trump Hnt) as Nt.
  unfold shown_max. fold harris trump.
  destruct (float_gt (col_max harris) (col_max trump)) eqn:G1.
  - split; [apply in_or_app; left; exact Ih|].
    apply Forall_app. split; [exact Uh|].
    apply (Forall_le_trans trump (col_max trump)); [|exact Ut].
    apply SFltb_leb, G1.
  - destruct (float_gt (col_max trump) (col_max harris)) eqn:G2.
    + split; [apply in_or_app; right; exact It|].
      apply Forall_app. split; [|exact Ut].
      apply (Forall_le_trans harris (col_max harris)); [|exact Uh].
      apply SFltb_leb, G2.
    + split; [apply in_or_app; left; exact Ih|].
      apply Forall_app. split; [exact Uh|].
      apply (Forall_le_trans trump (col_max trump)); [|exact Ut].
      apply SFltb_total; assumption.
Qed.

Lemma X11_label_shows_overall_maximum_witness :
  highest_polling_candidate
    (snd (build_data_dict
            (init ["h"; "Oct,1,9 LV,40,62.5"; "Nov,2,7 RV,50,40"])))
  = Ok "Trump 62.5%".
Proof.
  refine (eq_trans
            (proj1 (X11_label_shows_overall_maximum
                      (snd (build_data_dict
                              (init ["h"; "Oct,1,9 LV,40,62.5";
                                     "Nov,2,7 RV,50,40"]))) _ _ _)) _);
    vm_compute; congruence.
Defined.

Lemma likely_average_aligned (self : PollReader) :
  aligned (data_dict self) ->
  likely_voter_polling_average self
  = Ok (mean_or_zero
          (likely_results (sample_type (data_dict self))
             (Harris_result (data_dict self))),
        mean_or_zero
          (likely_results (sample_type (data_dict self))
             (Trump_result (data_dict self)))).
Proof.
  intros (_ & _ & Hs & Hh & Ht).
  unfold likely_voter_polling_average.
  rewrite likely_loop_filter by lia.
  cbn [skipn app]. rewrite !avg_or_zero_mean. reflexivity.
Qed.

(** X10. [main] prints nothing and raises the error of the build when
    the build raises.  When the build succeeds, [main] returns normally, no
    query raising, and has printed exactly seven lines: the label of the
    highest polling candidate, the two likely-voter means times 100 to two
    decimals, and the two changes times 100 to two decimals with their
    sign. *)
Theorem X10_report (lines : list string) :
  (forall e self,
      build_data_dict (init lines) = (Raise e, self) ->
      main lines = (Raise e, []))
  /\ (forall self,
         build_data_dict (init lines) = (Ok tt, self) ->
         exists changes,
           polling_history_change self = Ok changes
           /\ main lines
              = (Ok tt,
                 report_lines
                   (percent_label (shown_name self) (shown_max self))
                   (mean_or_zero
                      (likely_results (sample_type (data_dict self))
                         (Harris_result (data_dict self))),
                    mean_or_zero
                      (likely_results (sample_type (data_dict self))
                         (Trump_result (data_dict self))))
                   changes)).
Proof.
  split.
  - intros e self H. unfold main. rewrite H. reflexivity.
  - intros self H. unfold main. rewrite H.
    assert (Ha : aligned (data_dict self))
      by (apply built_aligned; exists lines; exact H).
    rewrite highest_label, (likely_average_aligned self Ha).
    pose proof (history_change_formula self) as Hc. cbv zeta in Hc.
    destruct (polling_history_change self) as [[hc tc]|e].
    + exists (hc, tc). split; reflexivity.
    + destruct (Nat.eqb _ 0) in Hc; discriminate.
Qed.

Lemma X10_report_witness :
  main ["h"; "Oct,1,1000 LV,55,45"; "Oct,2,1000 RV,50,50";
        "Oct,3,900 XX,57.0,52"]
  = (Ok tt,
     ["Highest Polling Candidate: Harris 57.0%";
      "Likely Voter Polling Average:"; "  Harris: 55.00%";
      "  Trump: 45.00%"; "Polling History Change:"; "  Harris: +0.00%";
      "  Trump: +0.00%"])
  /\ main ["h"; "Oct,1,1000 LV,55,4x5"] = (Raise ValueError, []).
Proof.
  split.
  - destruct (X10_report ["h"; "Oct,1,1000 LV,55,45"; "Oct,2,1000 RV,50,50";
                          "Oct,3,900 XX,57.0,52"]) as [_ H].
    destruct (H (snd (build_data_dict
                        (init ["h"; "Oct,1,1000 LV,55,45";
                               "Oct,2,1000 RV,50,50";
                               "Oct,3,900 XX,57.0,52"]))))
      as (changes & Hc & Hm).
    + vm_compute. reflexivity.
    + rewrite Hm. vm_compute in Hc. injection Hc as <-.
      vm_compute. reflexivity.
  - destruct (X10_report ["h"; "Oct,1,1000 LV,55,4x5"]) as [H _].
    apply (H ValueError
             (snd (build_data_dict (init ["h"; "Oct,1,1000 LV,55,4x5"])))).
    vm_compute. reflexivity.
Defined.

(** ** The rows behind the likely-voter means *)

Lemma built_labels (lines : list string) (self : PollReader) :
  build_data_dict (init lines) = (Ok tt, self) ->
  sample_type (data_dict self) = map label_of_row (filter complete (tl lines)).
Proof.
  intros H. apply built_columns in H.
  destruct H as (recs & Hrecs & _ & _ & _ & -> & _).
  induction Hrecs as [|row r rows recs Hr _ IH]; cbn [map].
  - reflexivity.
  - rewrite IH. f_equal.
    destruct Hr as (_ & _ & (st & Hs & ->) & _).
    apply (sample_column_label _ _ _ Hs).
Qed.

Lemma is_likely_label (row : string) :
  is_likely (label_of_row row) = two_tokens_LV row.
Proof. unfold label_of_row. destruct (two_tokens_LV row); reflexivity. Qed.

Lemma likely_results_of_labels (rows : list string) :
  forall col,
    likely_results (map label_of_row rows) col = results_of_LV_rows rows col.
Proof.
  unfold likely_results, results_of_LV_rows.
  induction rows as [|row rows IH]; intros [|x col]; try reflexivity.
  cbn [map combine filter fst]. rewrite is_likely_label.
  destruct (two_tokens_LV row); cbn [map snd]; rewrite <- IH; reflexivity.
Qed.

(** X13. After a successful build, [likely_voter_polling_average]
    returns the means of the Harris and of the Trump results over exactly
    the records of the rows whose sample descriptor is two tokens with [LV]
    as the second ([0.0] when there is no such row): records of rows marked
    [RV], unmarked, or marked otherwise do not enter. *)
Theorem X13_likely_average_rows (lines : list string) (self : PollReader) :
  build_data_dict (init lines) = (Ok tt, self) ->
  let rows := filter complete (tl lines) in
  likely_voter_polling_average self
  = Ok (mean_or_zero
          (results_of_LV_rows rows (Harris_result (data_dict self))),
        mean_or_zero
          (results_of_LV_rows rows (Trump_result (data_dict self)))).
Proof.
  intros H rows.
  assert (Ha : aligned (data_dict self))
    by (apply built_aligned; exists lines; exact H).
  rewrite (likely_average_aligned self Ha).
  rewrite (built_labels lines self H). fold rows.
  rewrite !likely_results_of_labels. reflexivity.
Qed.

Lemma X13_likely_average_rows_witness :
  likely_voter_polling_average
    (snd (build_data_dict
            (init ["h"; "Oct,1,9 LV,40,60"; "Nov,2,7 RV,50,40";
                   "Nov,3,7 LV x,90,10"; "Nov,4,7 LV,60,20"])))
  = Ok (float_div
          (float_add (float_add f0 (float_div (float_of_Z 40) f100))
             (float_div (float_of_Z 60) f100)) (float_of_Z 2),
        float_div
          (float_add (float_add f0 (float_div (float_of_Z 60) f100))
             (float_div (float_of_Z 20) f100)) (float_of_Z 2)).
Proof.
  rewrite (X13_likely_average_rows
             ["h"; "Oct,1,9 LV,40,60"; "Nov,2,7 RV,50,40";
              "Nov,3,7 LV x,90,10"; "Nov,4,7 LV,60,20"]).
  - vm_compute. reflexivity.
  - vm_compute. reflexivity.
Defined.

(** ** No rollback *)

Lemma build_loop_outcome (hdr : string) (rows : list string)
    (d : data_dict_t) (raw : list string) :
  build_outcome (hdr :: rows) = (Ok tt, d) ->
  build_loop 1 rows (with_raw (init []) raw)
  = (Ok tt, with_raw (set_dict (init []) d) raw).
Proof.
  intros H. apply build_outcome_ok in H. destruct H as (recs & Hr & ->).
  rewrite (build_loop_records 0 rows recs Hr). reflexivity.
Qed.

(** X14. Nothing is rolled back when a row raises: if the rows before
    it build successfully into a store [dp], the store that the failed build
    leaves has, in each column, the contents of [dp] followed by at most one
    more item; the month column has the month of the failing row appended,
    and the Trump result column is that of [dp]. *)
Theorem X14_no_rollback (hdr row : string) (pre post : list string)
    (dp : data_dict_t) :
  build_outcome (hdr :: pre) = (Ok tt, dp) ->
  complete row = true -> parse_fails row ->
  exists e d,
    build_outcome (hdr :: pre ++ row :: post) = (Raise e, d)
    /\ month d = month dp ++ [field 0 row]
    /\ Trump_result d = Trump_result dp
    /\ (exists x, date d = date dp ++ x /\ (List.length x <= 1)%nat)
    /\ (exists x, sample d = sample dp ++ x /\ (List.length x <= 1)%nat)
    /\ (exists x, sample_type d = sample_type dp ++ x
                  /\ (List.length x <= 1)%nat)
    /\ (exists x, Harris_result d = Harris_result dp ++ x
                  /\ (List.length x <= 1)%nat).
Proof.
  intros Hp Hc Hf.
  rewrite build_outcome_cons.
  change (init (hdr :: pre ++ row :: post))
    with (with_raw (init []) (hdr :: pre ++ row :: post)).
  rewrite build_loop_app, (build_loop_outcome hdr pre dp _ Hp).
  cbn [build_loop Nat.eqb]. unfold bind.
  rewrite (build_row_trace row _ Hc). cbn [data_dict with_raw set_dict].
  unfold row_trace.
  assert (Keep : forall (A : Type) (l : list A),
             exists x, l = l ++ x /\ (List.length x <= 1)%nat)
    by (intros A l; exists []; rewrite app_nil_r; cbn; auto).
  assert (One : forall (A : Type) (l : list A) (a : A),
             exists x, l ++ [a] = l ++ x /\ (List.length x <= 1)%nat)
    by (intros A l a; exists [a]; cbn; auto).
  destruct (py_int (field 1 row)) as [dt|e] eqn:E1.
  2:{ exists e. eexists. cbn [fst snd]. split; [reflexivity|]. cbn.
      repeat split; auto. }
  destruct (sample_column (field 2 row)) as [st|e] eqn:E2.
  2:{ exists e. eexists. cbn [fst snd]. split; [reflexivity|]. cbn.
      repeat split; auto. }
  destruct (_to_fraction (field 3 row)) as [h|e] eqn:E3.
  2:{ exists e. eexists. cbn [fst snd]. split; [reflexivity|]. cbn.
      repeat split; auto. }
  destruct (_to_fraction (field 4 row)) as [t|e] eqn:E4.
  2:{ exists e. eexists. cbn [fst snd]. split; [reflexivity|]. cbn.
      repeat split; auto. }
  exfalso.
  destruct Hf as [[e H]|[[e H]|[[e H]|[e H]]]].
  - congruence.
  - congruence.
  - apply to_fraction_raise in H. congruence.
  - apply to_fraction_raise in H. congruence.
Qed.

Lemma X14_no_rollback_witness :
  exists e d,
    build_outcome ("h" :: ["Oct,1,9 LV,5,5"] ++ "Nov,2,7 RV,x,4" :: ["z"])
    = (Raise e, d)
    /\ month d = month (snd (build_outcome ["h"; "Oct,1,9 LV,5,5"])) ++ ["Nov"].
Proof.
  destruct (X14_no_rollback "h" "Nov,2,7 RV,x,4" ["Oct,1,9 LV,5,5"] ["z"]
              (snd (build_outcome ["h"; "Oct,1,9 LV,5,5"])))
    as (e & d & H1 & H2 & _).
  - vm_compute. reflexivity.
  - vm_compute. reflexivity.
  - right; right; left. exists ValueError. vm_compute. reflexivity.
  - exists e, d. split; [exact H1 | exact H2].
Defined.
